(** * The crawl engine of the Linux web crawler (class [WebCrawler])

    A shallow embedding of [crawler.js]: the extraction pipeline, the robots
    gate, the authentication resolver, the request loop of [makeRequest] and
    the three crawl methods, followed by the properties of the specification
    that concern them.

    Conventions of the embedding.
    - The state of a [WebCrawler] instance ([visitedUrls], [crawledData],
      [robotsCache]) is threaded explicitly; every interaction with the
      outside world (HTTP request, login POST, robots fetch, browser session,
      curl process, timer) is appended to a [trace].
    - The outside world is an oracle [Env]: the answer to a call may depend on
      the call and on the moment it is made (the length of the trace so far).
    - JavaScript exceptions are an outcome [Throw]; [await] on a rejected
      promise is the same outcome.
    - Console spinners and the winston logger are write-only sinks without
      influence on control flow; they are left out.
    - Numeric options are integers ([Z]); an option that may be [undefined]
      is an [option]. *)

From Stdlib Require Import ZArith Ascii String.
From stdpp Require Import gmap strings list fin_maps.

Open Scope string_scope.
Open Scope Z_scope.

(** ** JavaScript values used by the crawler *)

(** [a || b] on strings where [a] may be [undefined]: the empty string and
    [undefined] are falsy. *)
Definition or_else (a : option string) (b : string) : string :=
  match a with
  | Some s => if String.eqb s "" then b else s
  | None => b
  end.

(** [!x] for a string that may be [undefined]. *)
Definition falsy (a : option string) : bool :=
  match a with
  | Some s => String.eqb s ""
  | None => true
  end.

(** [arr.slice(0, n)]: a negative end counts from the end of the array. *)
Definition slice0 {A : Type} (n : Z) (l : list A) : list A :=
  if n <? 0 then take (Z.to_nat (Z.max 0 (Z.of_nat (length l) + n))) l
  else take (Z.to_nat n) l.

(** [String.prototype.trim] on the ASCII white space characters. *)
Definition is_space (c : ascii) : bool :=
  let n := nat_of_ascii c in
  ((9 <=? n)%nat && (n <=? 13)%nat) || (n =? 32)%nat.

Fixpoint trim_start (s : string) : string :=
  match s with
  | String c rest => if is_space c then trim_start rest else s
  | EmptyString => EmptyString
  end.

Fixpoint trim_end (s : string) : string :=
  match s with
  | String c rest =>
      match trim_end rest with
      | EmptyString => if is_space c then EmptyString else String c EmptyString
      | r => String c r
      end
  | EmptyString => EmptyString
  end.

Definition trim (s : string) : string := trim_end (trim_start s).

(** ** Documents *)

(** An element of a parsed document: tag name, attributes in source order and
    text content. A document is the list of its elements in document order,
    together with its serialisation. *)
Record Element := mkElement {
  el_tag : string;
  el_attrs : list (string * string);
  el_text : string
}.

Record Dom := mkDom {
  dom_elements : list Element;
  dom_html : string
}.

Fixpoint assoc (k : string) (l : list (string * string)) : option string :=
  match l with
  | [] => None
  | (k', v) :: rest => if String.eqb k k' then Some v else assoc k rest
  end.

(** [$(el).attr(name)]: the attribute value or [undefined]. *)
Definition attr (name : string) (e : Element) : option string :=
  assoc name (el_attrs e).

(** Selectors used by the crawler. *)
Definition select_tag (tag : string) (d : list Element) : list Element :=
  filter (fun e => el_tag e = tag) d.

(** [tag[a]]: elements of that tag carrying attribute [a]. *)
Definition select_has (tag a : string) (d : list Element) : list Element :=
  filter (fun e => el_tag e = tag /\ is_Some (attr a e)) d.

(** [tag[a="v"]]. *)
Definition select_eq (tag a v : string) (d : list Element) : list Element :=
  filter (fun e => el_tag e = tag /\ attr a e = Some v) d.

(** [selection.text()]: the texts of all matched elements, concatenated. *)
Definition sel_text (sel : list Element) : string :=
  foldr (fun e acc => el_text e +:+ acc) "" sel.

(** [selection.attr(name)]: the attribute of the first matched element. *)
Definition sel_attr (name : string) (sel : list Element) : option string :=
  match sel with
  | e :: _ => attr name e
  | [] => None
  end.

(** ** Records produced by the crawler *)

(** Records built by cheerio extraction carry [target] (links) and
    [width]/[height] (images); the records built inside the browser by
    [crawlWithPuppeteer] do not have these keys. *)
Record LinkRecord := mkLink {
  l_text : string;
  l_url : string;
  l_title : string;
  l_target : option string
}.

Record ImageRecord := mkImage {
  i_src : string;
  i_alt : string;
  i_title : string;
  i_width : option string;
  i_height : option string
}.

(** The first argument of [crawlWithAxios]. The command line passes a string;
    the recursive call of [crawlWithAxios] passes the element [link] of the
    array returned by [extractLinks], which is a link record object, not its
    [url] field. *)
Inductive JsUrl :=
| UStr (s : string)
| UObj (l : LinkRecord).

Record PageData := mkPageData {
  p_title : string;
  p_url : JsUrl;
  p_timestamp : string;
  p_text : string;
  p_html : string;
  p_links : list LinkRecord;
  p_images : list ImageRecord;
  p_meta : gmap string string;
  p_statusCode : option Z;
  p_contentType : option string
}.

(** ** Errors *)

Inductive JsError :=
| BasicAuthRequires            (* 'Basic auth requires username and password' *)
| BearerAuthRequires           (* 'Bearer auth requires token' *)
| CookieAuthRequires           (* 'Cookie auth requires cookies array or string' *)
| FormAuthRequires             (* 'Form auth requires loginUrl and loginData' *)
| FormAuthenticationFailed (cause : JsError) (* `Form authentication failed: ${error.message}` *)
| RequestFailedStatus (status : Z)           (* axios: validateStatus rejected the status *)
| NetworkError (msg : string)                (* axios: no response (refused, timeout, ...) *)
| TypeError (msg : string).

(** ** The outside world *)

Record Response := mkResponse {
  r_status : Z;
  r_headers : gmap string string;
  r_set_cookie : option (list string);   (* response.headers['set-cookie'] *)
  r_data : string
}.

(** What the network does with one HTTP exchange, redirects included. *)
Inductive HttpOutcome :=
| NetFail (msg : string)
| HttpReply (r : Response).

(** The object returned by [robotsParser]. *)
Record Robots := mkRobots { isAllowed : string -> bool }.

(** What the browser shows after [page.goto]: the values read by
    [page.evaluate]. *)
Record Rendered := mkRendered {
  doc_title : string;            (* document.title *)
  location_href : string;        (* window.location.href *)
  body_innerText : string;       (* document.body.innerText *)
  outerHTML : string;            (* document.documentElement.outerHTML *)
  doc_elements : list Element
}.

Inductive Cookies :=
| CookieString (s : string)
| CookieArray (l : list (string * string)).   (* [{name, value}, ...] *)

Record Env := mkEnv {
  (** [axios(config)] of [makeRequest]: target, headers, moment. *)
  http_request : JsUrl -> gmap string string -> nat -> HttpOutcome;
  (** [axios.get(robotsUrl)]. *)
  http_get : string -> nat -> HttpOutcome;
  (** [axios.post(loginUrl, loginData, ...)]. *)
  http_post : string -> list (string * string) -> nat -> HttpOutcome;
  (** A whole puppeteer session (launch, newPage, setUserAgent, goto,
      waitForTimeout, evaluate, screenshot) for a user agent, a timeout and a
      URL; [None] when any of these steps throws. *)
  browser_session : string -> Z -> string -> nat -> option Rendered;
  (** [execPromise(curlCommand)] for a user agent, a timeout and a URL:
      [(stdout, stderr)], or [None] when the process exits with a non-zero
      code. *)
  exec_curl : string -> Z -> string -> nat -> option (string * string);
  (** [cheerio.load]. *)
  cheerio_load : string -> Dom;
  (** [new URL(href, base).href] for a string base; [None] when it throws. *)
  URL_resolve : string -> string -> option string;
  (** [new URL(url)]: [(protocol, host)], or [None] when it throws. *)
  URL_parse : string -> option (string * string);
  (** [robotsParser(robotsUrl, body)]; [None] when it throws. *)
  robotsParser : string -> string -> option Robots;
  (** [Buffer.from(s).toString('base64')]. *)
  base64 : string -> string;
  (** [new Date().toISOString()]. *)
  now : nat -> string
}.

(** ** Configuration *)

Record Credentials := mkCredentials {
  username : option string;
  password : option string;
  token : option string;
  cookies : option Cookies;
  loginUrl : option string;
  loginData : option (list (string * string))
}.

(** [options.auth]: [{ type, credentials }]. *)
Record Auth := mkAuth {
  auth_type : string;
  credentials : Credentials
}.

(** [this.options]. *)
Record Options := mkOptions {
  maxDepth : Z;
  opt_delay : Z;
  maxPages : Z;
  userAgent : string;
  respectRobots : bool;
  followRedirects : bool;
  timeout : Z;
  retries : Z;
  concurrent : Z;
  auth : option Auth
}.

(** The argument of the constructor: every key may be missing. *)
Record UserOptions := mkUserOptions {
  u_maxDepth : option Z;
  u_delay : option Z;
  u_maxPages : option Z;
  u_userAgent : option string;
  u_respectRobots : option bool;
  u_followRedirects : option bool;
  u_timeout : option Z;
  u_retries : option Z;
  u_concurrent : option Z;
  u_auth : option Auth
}.

(** The constructor builds [{ key: options.key || default, ..., ...options }]:
    the trailing spread puts back every key the caller passed, so a default
    applies exactly when the key is missing. [randomAgent] stands for
    [new UserAgent().toString()]. *)
Definition WebCrawler_options (randomAgent : string) (o : UserOptions) : Options :=
  {| maxDepth := default 3 (u_maxDepth o);
     opt_delay := default 1000 (u_delay o);
     maxPages := default 50 (u_maxPages o);
     userAgent := default randomAgent (u_userAgent o);
     respectRobots := default true (u_respectRobots o);
     followRedirects := default true (u_followRedirects o);
     timeout := default 30000 (u_timeout o);
     retries := default 3 (u_retries o);
     concurrent := default 5 (u_concurrent o);
     auth := u_auth o |}.

(** The second argument of [crawlWithAxios]: [{ depth, retries }], both
    possibly [undefined]. *)
Record CrawlOptions := mkCrawlOptions {
  depth : option Z;
  retries_left : option Z
}.

(** [x > 0] for a number that may be [undefined]. *)
Definition positive_opt (x : option Z) : bool :=
  match x with
  | Some n => 0 <? n
  | None => false
  end.

(** ** State and effects *)

Inductive Event :=
| EvRequest (url : JsUrl) (headers : gmap string string)   (* axios(config) *)
| EvRobotsGet (robotsUrl : string)                         (* axios.get(robotsUrl) *)
| EvLoginPost (url : string) (form : list (string * string)) (* axios.post(loginUrl, ...) *)
| EvBrowser (url : string)                                 (* puppeteer session *)
| EvCurl (url : string)                                    (* curl process *)
| EvDelay (ms : Z).                                        (* this.delay(ms) *)

(** The mutable fields of a [WebCrawler] and the history of its I/O.
    [visitedUrls] is a JavaScript [Set]: insertion ordered, without
    repetition. *)
Record Crawler := mkCrawler {
  visitedUrls : list JsUrl;
  crawledData : list PageData;
  robotsCache : gmap string Robots;
  trace : list Event
}.

Definition new_crawler : Crawler :=
  {| visitedUrls := []; crawledData := []; robotsCache := ∅; trace := [] |}.

(** [Set.prototype.has]. Strings are compared by value. An object is compared
    by identity: the only objects that [crawlWithAxios] receives are the link
    records that [extractLinks] has just allocated for the loop over the
    links, and each of them is passed to one call, so an object is never
    found in the set. *)
Definition Set_has (v : JsUrl) (s : list JsUrl) : bool :=
  match v with
  | UStr x => existsb (fun w => match w with UStr y => String.eqb x y | UObj _ => false end) s
  | UObj _ => false
  end.

Definition Set_add (v : JsUrl) (s : list JsUrl) : list JsUrl :=
  if Set_has v s then s else s ++ [v].

Inductive Outcome (A : Type) :=
| Ok (a : A)
| Throw (e : JsError)
| OutOfFuel.
Arguments Ok {A} a.
Arguments Throw {A} e.
Arguments OutOfFuel {A}.

Definition M (A : Type) : Type := Crawler -> Outcome A * Crawler.

Definition ret {A} (a : A) : M A := fun s => (Ok a, s).
Definition throw {A} (e : JsError) : M A := fun s => (Throw e, s).
Definition out_of_fuel {A} : M A := fun s => (OutOfFuel, s).

Definition bind {A B} (m : M A) (k : A -> M B) : M B :=
  fun s =>
    match m s with
    | (Ok a, s') => k a s'
    | (Throw e, s') => (Throw e, s')
    | (OutOfFuel, s') => (OutOfFuel, s')
    end.

(** [try { m } catch (error) { h error }]. *)
Definition try_catch {A} (m : M A) (h : JsError -> M A) : M A :=
  fun s =>
    match m s with
    | (Throw e, s') => h e s'
    | r => r
    end.

Notation "'let*' x ':=' c 'in' k" := (bind c (fun x => k))
  (at level 10, x binder, c at level 100, k at level 200).
Notation "c ';;' k" := (bind c (fun _ => k))
  (at level 100, k at level 200, right associativity).

Definition get : M Crawler := fun s => (Ok s, s).
Definition emit (e : Event) : M unit :=
  fun s => (Ok tt, {| visitedUrls := visitedUrls s; crawledData := crawledData s;
                      robotsCache := robotsCache s; trace := trace s ++ [e] |}).
Definition clock : M nat := fun s => (Ok (length (trace s)), s).
Definition push_crawledData (p : PageData) : M unit :=
  fun s => (Ok tt, {| visitedUrls := visitedUrls s; crawledData := crawledData s ++ [p];
                      robotsCache := robotsCache s; trace := trace s |}).
Definition add_visited (u : JsUrl) : M unit :=
  fun s => (Ok tt, {| visitedUrls := Set_add u (visitedUrls s); crawledData := crawledData s;
                      robotsCache := robotsCache s; trace := trace s |}).
Definition set_robotsCache (k : string) (r : Robots) : M unit :=
  fun s => (Ok tt, {| visitedUrls := visitedUrls s; crawledData := crawledData s;
                      robotsCache := <[k := r]> (robotsCache s); trace := trace s |}).

(** The outcome of a call that returns or throws. *)
Definition of_sum {A} (r : JsError + A) : M A :=
  match r with
  | inl e => throw e
  | inr a => ret a
  end.

(** [for (const x of l) { await f(x) }]. *)
Fixpoint for_each {A} (l : list A) (f : A -> M unit) : M unit :=
  match l with
  | [] => ret tt
  | x :: rest => f x ;; for_each rest f
  end.

(** [await this.delay(ms)]. *)
Definition delay (ms : Z) : M unit := emit (EvDelay ms).

(** The page requests of a trace, in order. *)
Definition page_requests (t : list Event) : list JsUrl :=
  omap (fun e => match e with EvRequest u _ => Some u | _ => None end) t.

Definition robots_fetches (t : list Event) : list string :=
  omap (fun e => match e with EvRobotsGet u => Some u | _ => None end) t.

(** A view of the [response] argument of [extractPageData]: axios passes a
    full response, [crawlWithCurl] passes [{ data: stdout }]. *)
Record ResponseView := mkView {
  v_status : option Z;
  v_headers : option (gmap string string)
}.

Definition view_of (r : Response) : ResponseView :=
  {| v_status := Some (r_status r); v_headers := Some (r_headers r) |}.

Definition view_of_stdout : ResponseView :=
  {| v_status := None; v_headers := None |}.

Section WebCrawler.

Context (E : Env) (cfg : Options).

(** ** Extraction *)

(** [new URL(href, base).href]. When the base is a link record, the
    constructor converts it to the string "[object Object]", which is not an
    absolute URL, and throws whatever [href] is. *)
Definition new_URL (href : string) (base : JsUrl) : option string :=
  match base with
  | UStr b => URL_resolve E href b
  | UObj _ => None
  end.

Definition extractLinks (d : Dom) (baseUrl : JsUrl) : list LinkRecord :=
  fold_left
    (fun links element =>
       match attr "href" element with
       | Some href =>
           if String.eqb href "" then links
           else match new_URL href baseUrl with
                | Some absoluteUrl =>
                    (links ++ [ {| l_text := trim (el_text element);
                                  l_url := absoluteUrl;
                                  l_title := or_else (attr "title" element) "";
                                  l_target := Some (or_else (attr "target" element) "_self") |} ])%list
                | None => links
                end
       | None => links
       end)
    (select_has "a" "href" (dom_elements d)) [].

Definition extractImages (d : Dom) (baseUrl : JsUrl) : list ImageRecord :=
  fold_left
    (fun images element =>
       match attr "src" element with
       | Some src =>
           if String.eqb src "" then images
           else match new_URL src baseUrl with
                | Some absoluteUrl =>
                    (images ++ [ {| i_src := absoluteUrl;
                                   i_alt := or_else (attr "alt" element) "";
                                   i_title := or_else (attr "title" element) "";
                                   i_width := Some (or_else (attr "width" element) "");
                                   i_height := Some (or_else (attr "height" element) "") |} ])%list
                | None => images
                end
       | None => images
       end)
    (select_has "img" "src" (dom_elements d)) [].

Definition extractPageData (d : Dom) (url : JsUrl) (response : ResponseView)
    (timestamp : string) : PageData :=
  let els := dom_elements d in
  {| p_title :=
       or_else (Some (trim (sel_text (select_tag "title" els))))
         (or_else (Some (trim (sel_text (take 1 (select_tag "h1" els))))) "No Title");
     p_url := url;
     p_timestamp := timestamp;
     p_text := trim (sel_text (select_tag "body" els));
     p_html := dom_html d;
     p_links := extractLinks d url;
     p_images := extractImages d url;
     p_meta :=
       <["description" := or_else (sel_attr "content" (select_eq "meta" "name" "description" els)) ""]>
       (<["keywords" := or_else (sel_attr "content" (select_eq "meta" "name" "keywords" els)) ""]>
       (<["author" := or_else (sel_attr "content" (select_eq "meta" "name" "author" els)) ""]>
       (<["viewport" := or_else (sel_attr "content" (select_eq "meta" "name" "viewport" els)) ""]>
       (<["charset" :=
            or_else (sel_attr "charset" (select_has "meta" "charset" els))
              (or_else (sel_attr "content" (select_eq "meta" "http-equiv" "Content-Type" els)) "")]>
        ∅))));
     p_statusCode :=
       Some (match v_status response with
             | Some n => if n =? 0 then 200 else n
             | None => 200
             end);
     p_contentType :=
       Some (or_else (match v_headers response with
                      | Some h => h !! "content-type"
                      | None => None
                      end) "text/html") |}.

(** ** HTTP client *)

(** axios resolves with the response when [validateStatus] accepts the status
    and rejects otherwise; a request without response rejects as well. *)
Definition axios_result (validateStatus : Z -> bool) (o : HttpOutcome) : JsError + Response :=
  match o with
  | NetFail msg => inl (NetworkError msg)
  | HttpReply r =>
      if validateStatus (r_status r) then inr r
      else inl (RequestFailedStatus (r_status r))
  end.

(** [status >= 200 && status < 300], also the default of axios. *)
Definition status_2xx (status : Z) : bool := (200 <=? status) && (status <? 300).

(** [status >= 200 && status < 400], used by the login POST. *)
Definition status_2xx_3xx (status : Z) : bool := (200 <=? status) && (status <? 400).

(** ** Robots gate *)

(** [new URL(url)] throws for a string that is not an absolute URL and for a
    link record (which it converts to "[object Object]").
    [robots.isAllowed(url)] is asked about a URL of the host the robots file
    was fetched from, where the parser answers [true] or [false]. *)
Definition checkRobotsTxt (url : JsUrl) : M bool :=
  try_catch
    (match url with
     | UObj _ => throw (TypeError "Invalid URL")
     | UStr u =>
         match URL_parse E u with
         | None => throw (TypeError "Invalid URL")
         | Some (protocol, host) =>
             let robotsUrl := protocol +:+ "//" +:+ host +:+ "/robots.txt" in
             let* s := get in
             match robotsCache s !! robotsUrl with
             | Some robots => ret (isAllowed robots u)
             | None =>
                 let* t := clock in
                 emit (EvRobotsGet robotsUrl) ;;
                 let* response := of_sum (axios_result status_2xx (http_get E robotsUrl t)) in
                 match robotsParser E robotsUrl (r_data response) with
                 | None => throw (TypeError "robots-parser")
                 | Some robots =>
                     set_robotsCache robotsUrl robots ;;
                     ret (isAllowed robots u)
                 end
             end
         end
     end)
    (fun _ => ret true).

(** ** Authentication *)

Definition join (sep : string) (l : list string) : string :=
  match l with
  | [] => ""
  | x :: rest => fold_left (fun acc y => acc +:+ sep +:+ y) rest x
  end.

(** [cookie.split(';')[0]]. *)
Fixpoint before_semicolon (s : string) : string :=
  match s with
  | String c rest => if Ascii.eqb c ";" then EmptyString else String c (before_semicolon rest)
  | EmptyString => EmptyString
  end.

(** A synchronous method: it returns or throws at the call. *)
Definition authenticateBasic (c : Credentials) : JsError + gmap string string :=
  if falsy (username c) || falsy (password c) then inl BasicAuthRequires
  else inr {[ "Authorization" :=
                "Basic " +:+ base64 E (default "" (username c) +:+ ":" +:+ default "" (password c)) ]}.

Definition authenticateBearer (c : Credentials) : JsError + gmap string string :=
  if falsy (token c) then inl BearerAuthRequires
  else inr {[ "Authorization" := "Bearer " +:+ default "" (token c) ]}.

(** An [async] method: the call yields a promise. *)
Definition authenticateCookie (c : Credentials) : M (option (gmap string string)) :=
  match cookies c with
  | None => throw CookieAuthRequires
  | Some (CookieString s) =>
      if String.eqb s "" then throw CookieAuthRequires
      else ret (Some {[ "Cookie" := s ]})
  | Some (CookieArray l) =>
      ret (Some {[ "Cookie" := join "; " (map (fun c => fst c +:+ "=" +:+ snd c) l) ]})
  end.

Definition authenticateForm (c : Credentials) : M (option (gmap string string)) :=
  match loginUrl c, loginData c with
  | Some url, Some form =>
      if String.eqb url "" then throw FormAuthRequires
      else
        try_catch
          (let* t := clock in
           emit (EvLoginPost url form) ;;
           let* response := of_sum (axios_result status_2xx_3xx (http_post E url form t)) in
           match r_set_cookie response with
           | Some (c0 :: cs) =>
               ret (Some {[ "Cookie" := join "; " (map before_semicolon (c0 :: cs)) ]})
           | _ => ret None
           end)
          (fun error => throw (FormAuthenticationFailed error))
  | _, _ => throw FormAuthRequires
  end.

(** What a [return] statement inside the [try] block of [authenticate]
    hands over: the value of a synchronous call, or the promise of an [async]
    call. *)
Inductive Returned :=
| Value (h : option (gmap string string))
| Promise (p : M (option (gmap string string))).

(** [authenticate] is [async] and its [try] block executes
    [return this.authenticateX(credentials)] without [await]. A synchronous
    method that throws does so inside the [try] and is caught: the result is
    [null]. An [async] method never throws at the call; the [return] leaves
    the [try] block with its promise, the promise of [authenticate] settles
    like it, and a rejection reaches the caller of [authenticate]. *)
Definition authenticate : M (option (gmap string string)) :=
  match auth cfg with
  | None => ret None
  | Some a =>
      let c := credentials a in
      let* r :=
        try_catch
          (if String.eqb (auth_type a) "basic" then
             let* h := of_sum (authenticateBasic c) in ret (Value (Some h))
           else if String.eqb (auth_type a) "bearer" then
             let* h := of_sum (authenticateBearer c) in ret (Value (Some h))
           else if String.eqb (auth_type a) "cookie" then
             ret (Promise (authenticateCookie c))
           else if String.eqb (auth_type a) "form" then
             ret (Promise (authenticateForm c))
           else ret (Value None))
          (fun _ => ret (Value None)) in
      match r with
      | Value h => ret h
      | Promise p => p
      end
  end.

(** ** Requests with retry *)

Definition base_headers : gmap string string :=
  <["User-Agent" := userAgent cfg]>
  (<["Accept" := "text/html,application/xhtml+xml,application/xml;q=0.9,*/*;q=0.8"]>
  (<["Accept-Language" := "en-US,en;q=0.5"]>
  (<["Accept-Encoding" := "gzip, deflate"]>
  (<["Connection" := "keep-alive"]>
  (<["Upgrade-Insecure-Requests" := "1"]> ∅))))).

(** [{ ...base, ...(authHeaders || {}) }]: the later spread wins. *)
Definition request_headers (authHeaders : option (gmap string string)) : gmap string string :=
  default ∅ authHeaders ∪ base_headers.

(** [await axios(config)]. *)
Definition axios (url : JsUrl) (headers : gmap string string) : M Response :=
  let* t := clock in
  emit (EvRequest url headers) ;;
  of_sum (axios_result status_2xx (http_request E url headers t)).

(** The body of [for (let attempt = 1; attempt <= retries; attempt++)], over
    the values [attempt] takes. When the loop runs out the function returns
    [undefined]. *)
Fixpoint request_loop (url : JsUrl) (headers : gmap string string) (attempts : list Z)
    : M (option Response) :=
  match attempts with
  | [] => ret None
  | attempt :: rest =>
      let* r :=
        try_catch
          (let* response := axios url headers in ret (Some response))
          (fun error =>
             if attempt =? retries cfg then throw error
             else delay (opt_delay cfg * attempt) ;; ret None) in
      match r with
      | Some response => ret (Some response)
      | None => request_loop url headers rest
      end
  end.

(** [makeRequest(url)]; every caller leaves the second argument out. *)
Definition makeRequest (url : JsUrl) : M (option Response) :=
  let* authHeaders := authenticate in
  request_loop url (request_headers authHeaders) (seqZ 1 (retries cfg)).

(** ** Crawl methods *)

(** The [href] and [src] properties of a browser element: the attribute
    resolved against the document URL (the raw attribute when it does not
    parse). *)
Definition prop_href (base : string) (e : Element) : string :=
  match attr "href" e with
  | Some h => default h (URL_resolve E h base)
  | None => ""
  end.

Definition prop_src (base : string) (e : Element) : string :=
  match attr "src" e with
  | Some h => if String.eqb h "" then "" else default h (URL_resolve E h base)
  | None => ""
  end.

(** The record built by [page.evaluate] inside the browser. *)
Definition evaluate_page (page : Rendered) (timestamp : string) : PageData :=
  let els := doc_elements page in
  let base := location_href page in
  {| p_title := doc_title page;
     p_url := UStr base;
     p_timestamp := timestamp;
     p_text := body_innerText page;
     p_html := outerHTML page;
     p_links :=
       map (fun a => {| l_text := trim (el_text a);
                        l_url := prop_href base a;
                        l_title := default "" (attr "title" a);
                        l_target := None |})
           (select_has "a" "href" els);
     p_images :=
       map (fun img => {| i_src := prop_src base img;
                          i_alt := default "" (attr "alt" img);
                          i_title := default "" (attr "title" img);
                          i_width := None;
                          i_height := None |})
           (select_tag "img" els);
     p_meta :=
       <["description" := or_else (sel_attr "content" (select_eq "meta" "name" "description" els)) ""]>
       (<["keywords" := or_else (sel_attr "content" (select_eq "meta" "name" "keywords" els)) ""]>
       (<["author" := or_else (sel_attr "content" (select_eq "meta" "name" "author" els)) ""]>
        ∅));
     p_statusCode := None;
     p_contentType := None |}.

Definition crawlWithPuppeteer (url : string) : M (option PageData) :=
  try_catch
    (let* t := clock in
     emit (EvBrowser url) ;;
     match browser_session E (userAgent cfg) (timeout cfg) url t with
     | None => throw (NetworkError "puppeteer")
     | Some page =>
         let pageData := evaluate_page page (now E t) in
         push_crawledData pageData ;;
         add_visited (UStr url) ;;
         ret (Some pageData)
     end)
    (fun _ => ret None).

Definition crawlWithCurl (url : string) : M (option PageData) :=
  try_catch
    (let* t := clock in
     emit (EvCurl url) ;;
     match exec_curl E (userAgent cfg) (timeout cfg) url t with
     | None => throw (NetworkError "curl")
     | Some (stdout, _) =>
         let d := cheerio_load E stdout in
         let pageData := extractPageData d (UStr url) view_of_stdout (now E t) in
         push_crawledData pageData ;;
         add_visited (UStr url) ;;
         ret (Some pageData)
     end)
    (fun _ => ret None).

(** [crawlWithAxios(url, options)]. The function calls itself for the linked
    pages, with [{ depth: options.depth - 1 }], and for a retry, with
    [{ ...options, retries: options.retries - 1 }]; [fuel] bounds the nesting
    of these calls. *)
Fixpoint crawlWithAxios_fuel (fuel : nat) (url : JsUrl) (options : CrawlOptions)
    : M (option PageData) :=
  match fuel with
  | O => out_of_fuel
  | S fuel' =>
      try_catch
        (let* s := get in
         if Set_has url (visitedUrls s) then ret None
         else if maxPages cfg <=? Z.of_nat (length (visitedUrls s)) then ret None
         else
           let* canCrawl := (if respectRobots cfg then checkRobotsTxt url else ret true) in
           if negb canCrawl then ret None
           else
             let* response := makeRequest url in
             match response with
             | None => throw (TypeError "Cannot read properties of undefined (reading 'data')")
             | Some response =>
                 let d := cheerio_load E (r_data response) in
                 let* t := clock in
                 let pageData := extractPageData d url (view_of response) (now E t) in
                 push_crawledData pageData ;;
                 add_visited url ;;
                 (if positive_opt (depth options) then
                    let links := extractLinks d url in
                    for_each (slice0 (concurrent cfg) links)
                      (fun link =>
                         delay (opt_delay cfg) ;;
                         crawlWithAxios_fuel fuel' (UObj link)
                           {| depth := (fun n => n - 1) <$> depth options;
                              retries_left := None |} ;;
                         ret tt)
                  else ret tt) ;;
                 ret (Some pageData)
             end)
        (fun _ =>
           if positive_opt (retries_left options) then
             delay (opt_delay cfg * 2) ;;
             crawlWithAxios_fuel fuel' url
               {| depth := depth options;
                  retries_left := (fun n => n - 1) <$> retries_left options |}
           else ret None)
  end.

(** The nesting of calls is bounded by the positive parts of [depth] and
    [retries]. *)
Definition nat_of (x : option Z) : nat := Z.to_nat (default 0 x).

Definition crawl_fuel (options : CrawlOptions) : nat :=
  S (nat_of (depth options) + nat_of (retries_left options)).

Definition crawlWithAxios (url : JsUrl) (options : CrawlOptions) : M (option PageData) :=
  crawlWithAxios_fuel (crawl_fuel options) url options.

End WebCrawler.

(** * Concrete worlds

    Small environments and documents on which the statements below are
    exercised. URL resolution is only asked about absolute, normalised
    references, which resolve to themselves. *)

Module Sample.

Definition anchor (href text : string) : Element :=
  {| el_tag := "a"; el_attrs := [("href", href)]; el_text := text |}.

Definition meta (name content : string) : Element :=
  {| el_tag := "meta"; el_attrs := [("name", name); ("content", content)]; el_text := "" |}.

(** A page with two anchors to the same address, then a third one. *)
Definition twice : Dom :=
  {| dom_elements :=
       [ {| el_tag := "title"; el_attrs := []; el_text := "Seed" |};
         meta "viewport" "width=device-width";
         anchor "https://example.test/a" "first";
         anchor "https://example.test/a" "again";
         anchor "https://example.test/b" "other" ];
     dom_html := "seed" |}.

Definition blank (body : string) : Dom := {| dom_elements := []; dom_html := body |}.

Definition reply (status : Z) (body : string) : Response :=
  {| r_status := status; r_headers := ∅; r_set_cookie := None; r_data := body |}.

Definition rendered : Rendered :=
  {| doc_title := "Seed";
     location_href := "https://example.test/";
     body_innerText := "first again other";
     outerHTML := "seed";
     doc_elements := dom_elements twice |}.

(** Every page request is answered with the page [twice]; robots.txt
    answers 404; the login endpoint answers 401; the browser and curl
    deliver the same page. No run below reaches [base64]. *)
Definition online : Env :=
  {| http_request := fun _ _ _ => HttpReply (reply 200 "seed");
     http_get := fun _ _ => HttpReply (reply 404 "");
     http_post := fun _ _ _ => HttpReply (reply 401 "");
     browser_session := fun _ _ _ _ => Some rendered;
     exec_curl := fun _ _ _ _ => Some ("seed", "");
     cheerio_load := fun body => if String.eqb body "seed" then twice else blank body;
     URL_resolve := fun href _ => Some href;
     URL_parse := fun _ => Some ("https:", "example.test");
     robotsParser := fun _ _ => Some {| isAllowed := fun _ => true |};
     base64 := fun s => s;
     now := fun _ => "2024-01-01T00:00:00.000Z" |}.

(** The same world with a target that never answers. *)
Definition offline : Env :=
  {| http_request := fun _ _ _ => NetFail "connect ECONNREFUSED";
     http_get := fun _ _ => NetFail "connect ECONNREFUSED";
     http_post := fun _ _ _ => NetFail "connect ECONNREFUSED";
     browser_session := fun _ _ _ _ => None;
     exec_curl := fun _ _ _ _ => None;
     cheerio_load := cheerio_load online;
     URL_resolve := URL_resolve online;
     URL_parse := URL_parse online;
     robotsParser := robotsParser online;
     base64 := base64 online;
     now := now online |}.

(** A world whose robots.txt is served and forbids [/private]. *)
Definition with_robots : Env :=
  {| http_request := http_request online;
     http_get := fun _ _ => HttpReply (reply 200 "Disallow: /private");
     http_post := http_post online;
     browser_session := browser_session online;
     exec_curl := exec_curl online;
     cheerio_load := cheerio_load online;
     URL_resolve := URL_resolve online;
     URL_parse := URL_parse online;
     robotsParser := fun _ _ =>
       Some {| isAllowed := fun u => negb (String.eqb u "https://example.test/private") |};
     base64 := base64 online;
     now := now online |}.

Definition no_options : UserOptions :=
  {| u_maxDepth := None; u_delay := None; u_maxPages := None; u_userAgent := None;
     u_respectRobots := None; u_followRedirects := None; u_timeout := None;
     u_retries := None; u_concurrent := None; u_auth := None |}.

(** [new WebCrawler()]: all defaults, in particular [retries = 3]. *)
Definition defaults : Options := WebCrawler_options "Mozilla/5.0" no_options.

(** [new WebCrawler({ retries: 0 })]. *)
Definition no_retries : Options :=
  WebCrawler_options "Mozilla/5.0"
    {| u_maxDepth := None; u_delay := None; u_maxPages := None; u_userAgent := None;
       u_respectRobots := None; u_followRedirects := None; u_timeout := None;
       u_retries := Some 0; u_concurrent := None; u_auth := None |}.

(** [new WebCrawler({ maxPages: 1 })]. *)
Definition one_page : Options :=
  WebCrawler_options "Mozilla/5.0"
    {| u_maxDepth := None; u_delay := None; u_maxPages := Some 1; u_userAgent := None;
       u_respectRobots := None; u_followRedirects := None; u_timeout := None;
       u_retries := None; u_concurrent := None; u_auth := None |}.

Definition with_auth (a : Auth) : Options :=
  WebCrawler_options "Mozilla/5.0"
    {| u_maxDepth := None; u_delay := None; u_maxPages := None; u_userAgent := None;
       u_respectRobots := None; u_followRedirects := None; u_timeout := None;
       u_retries := None; u_concurrent := None; u_auth := Some a |}.

Definition no_credentials : Credentials :=
  {| username := None; password := None; token := None; cookies := None;
     loginUrl := None; loginData := None |}.

(** Basic authentication with an empty password. *)
Definition basic_empty_password : Auth :=
  {| auth_type := "basic";
     credentials := {| username := Some "alice"; password := Some ""; token := None;
                       cookies := None; loginUrl := None; loginData := None |} |}.

Definition form_login : Auth :=
  {| auth_type := "form";
     credentials := {| username := None; password := None; token := None; cookies := None;
                       loginUrl := Some "https://example.test/login";
                       loginData := Some [("user", "alice"); ("pass", "wrong")] |} |}.

Definition seed : string := "https://example.test/".

(** A target that refuses the first two requests of a fresh crawler (made at
    moments 0 and 2) and answers the third (moment 4). *)
Definition flaky : Env :=
  {| http_request := fun _ _ t => if (t <? 4)%nat then NetFail "connect ECONNREFUSED"
                                  else HttpReply (reply 200 "seed");
     http_get := http_get online;
     http_post := http_post online;
     browser_session := browser_session online;
     exec_curl := exec_curl online;
     cheerio_load := cheerio_load online;
     URL_resolve := URL_resolve online;
     URL_parse := URL_parse online;
     robotsParser := robotsParser online;
     base64 := base64 online;
     now := now online |}.

(** A world whose login endpoint redirects and sets two cookies. *)
Definition signed_in : Env :=
  {| http_request := http_request online;
     http_get := http_get online;
     http_post := fun _ _ _ =>
       HttpReply {| r_status := 302; r_headers := ∅;
                    r_set_cookie := Some ["sid=abc123; Path=/; HttpOnly"; "theme=dark"];
                    r_data := "" |};
     browser_session := browser_session online;
     exec_curl := exec_curl online;
     cheerio_load := cheerio_load online;
     URL_resolve := URL_resolve online;
     URL_parse := URL_parse online;
     robotsParser := robotsParser online;
     base64 := base64 online;
     now := now online |}.

Definition basic_alice : Auth :=
  {| auth_type := "basic";
     credentials := {| username := Some "alice"; password := Some "secret"; token := None;
                       cookies := None; loginUrl := None; loginData := None |} |}.

Definition bearer_token : Auth :=
  {| auth_type := "bearer";
     credentials := {| username := None; password := None; token := Some "t0k3n";
                       cookies := None; loginUrl := None; loginData := None |} |}.

Definition bearer_without_token : Auth :=
  {| auth_type := "bearer"; credentials := no_credentials |}.

Definition cookie_pairs : Auth :=
  {| auth_type := "cookie";
     credentials := {| username := None; password := None; token := None;
                       cookies := Some (CookieArray [("sid", "abc123"); ("theme", "dark")]);
                       loginUrl := None; loginData := None |} |}.

Definition cookie_without_cookies : Auth :=
  {| auth_type := "cookie"; credentials := no_credentials |}.

(** Base64 of a byte string, as [Buffer.from(s).toString('base64')] yields
    it. *)
Definition base64_alphabet : string :=
  "ABCDEFGHIJKLMNOPQRSTUVWXYZabcdefghijklmnopqrstuvwxyz0123456789+/".

Definition base64_digit (i : N) : ascii :=
  default "="%char (String.get (N.to_nat i) base64_alphabet).

Fixpoint base64_bytes (l : list N) : string :=
  match l with
  | a :: b :: c :: rest =>
      let n := (a * 65536 + b * 256 + c)%N in
      String (base64_digit (n / 262144))
        (String (base64_digit ((n / 4096) mod 64))
           (String (base64_digit ((n / 64) mod 64))
              (String (base64_digit (n mod 64)) (base64_bytes rest))))
  | [a; b] =>
      let n := (a * 65536 + b * 256)%N in
      String (base64_digit (n / 262144))
        (String (base64_digit ((n / 4096) mod 64))
           (String (base64_digit ((n / 64) mod 64)) "="))
  | [a] =>
      let n := (a * 65536)%N in
      String (base64_digit (n / 262144))
        (String (base64_digit ((n / 4096) mod 64)) "==")
  | [] => ""
  end.

Definition base64_encode (s : string) : string :=
  base64_bytes (N_of_ascii <$> list_ascii_of_string s).

(** The world [online] with the Base64 encoding in place. *)
Definition encoding : Env :=
  {| http_request := http_request online;
     http_get := http_get online;
     http_post := http_post online;
     browser_session := browser_session online;
     exec_curl := exec_curl online;
     cheerio_load := cheerio_load online;
     URL_resolve := URL_resolve online;
     URL_parse := URL_parse online;
     robotsParser := robotsParser online;
     base64 := base64_encode;
     now := now online |}.

(** [new WebCrawler({ respectRobots: false })]. *)
Definition ignore_robots : Options :=
  WebCrawler_options "Mozilla/5.0"
    {| u_maxDepth := None; u_delay := None; u_maxPages := None; u_userAgent := None;
       u_respectRobots := Some false; u_followRedirects := None; u_timeout := None;
       u_retries := None; u_concurrent := None; u_auth := None |}.

End Sample.

(** * Vocabulary of the properties *)

(** What one anchor contributes to the links of a page. *)
Definition link_of (E : Env) (baseUrl : JsUrl) (element : Element) : option LinkRecord :=
  match attr "href" element with
  | Some href =>
      if String.eqb href "" then None
      else (fun absoluteUrl =>
              {| l_text := trim (el_text element);
                 l_url := absoluteUrl;
                 l_title := or_else (attr "title" element) "";
                 l_target := Some (or_else (attr "target" element) "_self") |})
           <$> new_URL E href baseUrl
  | None => None
  end.

(** The destination of an anchor, when it has one. *)
Definition destination (E : Env) (baseUrl : JsUrl) (element : Element) : option string :=
  match attr "href" element with
  | Some href => if String.eqb href "" then None else new_URL E href baseUrl
  | None => None
  end.

Definition anchors (d : Dom) : list Element := select_has "a" "href" (dom_elements d).

(** The rule set obtained from [robotsUrl] at moment [t], if the fetch
    succeeds with a 2xx status and the body parses. *)
Definition fetch_robots (E : Env) (robotsUrl : string) (t : nat) : option Robots :=
  match http_get E robotsUrl t with
  | HttpReply r => if status_2xx (r_status r) then robotsParser E robotsUrl (r_data r) else None
  | NetFail _ => None
  end.

(** The robots document of the host of [u] cannot be had at moment [t]: the
    URL does not parse, the fetch fails or answers outside 2xx, or the body
    does not parse. *)
Definition robots_unavailable (E : Env) (u : string) (t : nat) : Prop :=
  match URL_parse E u with
  | Some (protocol, host) =>
      fetch_robots E (protocol +:+ "//" +:+ host +:+ "/robots.txt") t = None
  | None => True
  end.

(** No rule set of the host of [u] is in the cache. *)
Definition robots_not_cached (E : Env) (u : string) (s : Crawler) : Prop :=
  match URL_parse E u with
  | Some (protocol, host) =>
      robotsCache s !! (protocol +:+ "//" +:+ host +:+ "/robots.txt") = None
  | None => True
  end.

Definition metadata_keys : list string :=
  ["description"; "keywords"; "author"; "viewport"; "charset"].

(** The crawler [s] after the I/O events [es]. *)
Definition logged (s : Crawler) (es : list Event) : Crawler :=
  {| visitedUrls := visitedUrls s; crawledData := crawledData s;
     robotsCache := robotsCache s; trace := trace s ++ es |}.

(** A page request that axios rejects: no response, or a status outside
    2xx. *)
Definition request_rejected (o : HttpOutcome) : Prop :=
  match o with
  | NetFail _ => True
  | HttpReply r => ~ (200 <= r_status r < 300)
  end.

(** A login POST that axios rejects: no response, or a status outside
    2xx-3xx. *)
Definition login_rejected (o : HttpOutcome) : Prop :=
  match o with
  | NetFail _ => True
  | HttpReply r => ~ (200 <= r_status r < 400)
  end.

(** The store of the crawler is untouched and no page request was made. *)
Definition quiet (s s' : Crawler) : Prop :=
  visitedUrls s' = visitedUrls s
  /\ crawledData s' = crawledData s
  /\ page_requests (trace s') = page_requests (trace s).

(** [x] is [undefined] or the empty string. *)
Definition absent_or_empty (x : option string) : Prop := x = None \/ x = Some "".

(** The positive parts of [depth] and [retries] bound the nesting of calls. *)
Definition measure (options : CrawlOptions) : nat :=
  (nat_of (depth options) + nat_of (retries_left options))%nat.

(** [l] is a link record of a page that the network served for [url]. *)
Definition linked_from (E : Env) (url : JsUrl) (l : LinkRecord) : Prop :=
  exists headers t response,
    http_request E url headers t = HttpReply response
    /\ l ∈ extractLinks E (cheerio_load E (r_data response)) url.

(** The visited set respects the page bound. *)
Definition within_bound (cfg : Options) (s : Crawler) : Prop :=
  Z.of_nat (length (visitedUrls s)) <= maxPages cfg.

(** What a call of [crawlWithAxios] on [url] started in [s] has done when it
    ends in [res]: it returned; its page requests are requests for [url]
    followed by requests for link records of a page served for [url]; the
    page bound is kept. *)
Definition crawl_ok (E : Env) (cfg : Options) (url : JsUrl) (s : Crawler)
    (res : Outcome (option PageData) * Crawler) : Prop :=
  exists r s' k objs,
    res = (Ok r, s')
    /\ page_requests (trace s')
       = (page_requests (trace s) ++ replicate k url ++ (UObj <$> objs))%list
    /\ Forall (linked_from E url) objs
    /\ (within_bound cfg s -> within_bound cfg s').

(** The source of an image element, when it has one. *)
Definition image_source (E : Env) (baseUrl : JsUrl) (element : Element) : option string :=
  match attr "src" element with
  | Some src => if String.eqb src "" then None else new_URL E src baseUrl
  | None => None
  end.

Definition images_with_src (d : Dom) : list Element :=
  select_has "img" "src" (dom_elements d).

(** [s] has no white space at either end. *)
Definition trimmed (s : string) : Prop := trim s = s.

(** The first character of [s], if any, is not white space. *)
Definition headed (s : string) : Prop :=
  match s with
  | String c _ => is_space c = false
  | EmptyString => True
  end.

Fixpoint has_semicolon (s : string) : bool :=
  match s with
  | String c rest => Ascii.eqb c ";" || has_semicolon rest
  | EmptyString => false
  end.

(** The page requests of a trace with their headers, the login POSTs and the
    waits, each in order. *)
Definition requests_sent (t : list Event) : list (JsUrl * gmap string string) :=
  omap (fun e => match e with EvRequest u h => Some (u, h) | _ => None end) t.

Definition login_posts (t : list Event) : list (string * list (string * string)) :=
  omap (fun e => match e with EvLoginPost u f => Some (u, f) | _ => None end) t.

Definition delays (t : list Event) : list Z :=
  omap (fun e => match e with EvDelay ms => Some ms | _ => None end) t.

(** An event of the request loop for [url] with [headers]. *)
Definition loop_event (url : JsUrl) (headers : gmap string string) (e : Event) : Prop :=
  e = EvRequest url headers \/ exists ms, e = EvDelay ms.

(** What [attempts] rejected attempts leave in the trace: a request and the
    wait of [delay * attempt] after each. *)
Definition failed_attempts (cfg : Options) (url : JsUrl) (headers : gmap string string)
    (attempts : list Z) : list Event :=
  flat_map (fun attempt => [EvRequest url headers; EvDelay (opt_delay cfg * attempt)]) attempts.

(** Every page request among [es] carries the header [name: value] and all
    the plain headers. *)
Definition requests_carry (cfg : Options) (name value : string) (es : list Event) : Prop :=
  Forall (fun e => forall u h, e = EvRequest u h ->
                     h !! name = Some value /\ base_headers cfg ⊆ h) es.

(** The value of the [Cookie] header built from configured cookies. *)
Definition cookie_header (c : Cookies) : string :=
  match c with
  | CookieString s => s
  | CookieArray l => join "; " (map (fun c => fst c +:+ "=" +:+ snd c) l)
  end.

(** What [authenticate] resolves to after an accepted login response. *)
Definition session_cookie (response : Response) : option (gmap string string) :=
  match r_set_cookie response with
  | Some (c0 :: cs) => Some {[ "Cookie" := join "; " (map before_semicolon (c0 :: cs)) ]}
  | _ => None
  end.

(** An I/O event that the direct HTTP path can produce under [cfg]: a page
    request with the plain headers and possibly authentication headers, a
    robots fetch when robots are respected, a login POST of the configured
    form, a wait; never a browser session or a curl process. *)
Definition axios_event (cfg : Options) (e : Event) : Prop :=
  match e with
  | EvRequest _ h => exists authHeaders, h = request_headers cfg authHeaders
  | EvRobotsGet _ => respectRobots cfg = true
  | EvLoginPost u f =>
      exists a, auth cfg = Some a /\ auth_type a = "form"
                /\ loginUrl (credentials a) = Some u /\ loginData (credentials a) = Some f
  | EvDelay _ => True
  | EvBrowser _ | EvCurl _ => False
  end.

(** The moves of a crawler on the direct HTTP path: an I/O event is
    recorded; a rule set enters the robots cache under a key that was free;
    a page record is stored and its URL, which was not visited, enters the
    visited set while the set is below [maxPages]. *)
Inductive step (cfg : Options) : Crawler -> Crawler -> Prop :=
| step_io s e :
    axios_event cfg e -> step cfg s (logged s [e])
| step_cache s k r :
    robotsCache s !! k = None ->
    step cfg s {| visitedUrls := visitedUrls s; crawledData := crawledData s;
                  robotsCache := <[k := r]> (robotsCache s); trace := trace s |}
| step_store s url pageData :
    Set_has url (visitedUrls s) = false ->
    Z.of_nat (length (visitedUrls s)) < maxPages cfg ->
    p_url pageData = url ->
    step cfg s {| visitedUrls := visitedUrls s ++ [url];
                  crawledData := crawledData s ++ [pageData];
                  robotsCache := robotsCache s; trace := trace s |}.

Definition reach (cfg : Options) : Crawler -> Crawler -> Prop := rtc (step cfg).

(** The strings of a visited set. *)
Definition visited_strings (l : list JsUrl) : list string :=
  omap (fun v => match v with UStr u => Some u | UObj _ => None end) l.

(** What a call of [crawlWithAxios url options] started in [s] has done when
    it ends in [res]. It returned. With [null], the store is as before. With
    a page record, that record was stored first and [url] entered the visited
    set; the records stored after it come from the loop over the links. *)
Definition crawl_post (cfg : Options) (url : JsUrl) (options : CrawlOptions) (s : Crawler)
    (res : Outcome (option PageData) * Crawler) : Prop :=
  exists r s',
    res = (Ok r, s')
    /\ reach cfg s s'
    /\ match r with
       | None => crawledData s' = crawledData s /\ visitedUrls s' = visitedUrls s
       | Some pageData =>
           exists records urls,
             crawledData s' = (crawledData s ++ pageData :: records)%list
             /\ visitedUrls s' = (visitedUrls s ++ url :: urls)%list
             /\ length records = length urls
             /\ p_url pageData = url
             /\ (exists status, p_statusCode pageData = Some status /\ 200 <= status < 300)
             /\ (positive_opt (depth options) = false -> records = [])
             /\ (forall l, url = UObj l -> records = [])
             /\ (length records
                 <= length (slice0 (concurrent cfg) (p_links pageData)))%nat
       end.

(** The rule set that decides about [u] in state [s]: the cached one, or the
    one fetched at this moment. *)
Definition robots_rules (E : Env) (u : string) (s : Crawler) : option Robots :=
  match URL_parse E u with
  | Some (protocol, host) =>
      let robotsUrl := protocol +:+ "//" +:+ host +:+ "/robots.txt" in
      match robotsCache s !! robotsUrl with
      | Some robots => Some robots
      | None => fetch_robots E robotsUrl (length (trace s))
      end
  | None => None
  end.

(** [cfg] with another [maxDepth]. *)
Definition with_maxDepth (d : Z) (cfg : Options) : Options :=
  {| maxDepth := d; opt_delay := opt_delay cfg; maxPages := maxPages cfg;
     userAgent := userAgent cfg; respectRobots := respectRobots cfg;
     followRedirects := followRedirects cfg; timeout := timeout cfg;
     retries := retries cfg; concurrent := concurrent cfg; auth := auth cfg |}.

(** * Reasoning about effects *)

Ltac run_monad :=
  unfold delay in *;
  unfold bind, ret, throw, out_of_fuel, try_catch, get, clock, emit,
    push_crawledData, add_visited, set_robotsCache, of_sum in *;
  cbn [fst snd visitedUrls crawledData robotsCache trace] in *.

(** Decide the comparisons of string literals in the goal. *)
Ltac compare_literals :=
  repeat match goal with
         | |- context [String.eqb ?x ?y] =>
             is_ground x; is_ground y;
             let b := eval vm_compute in (String.eqb x y) in
             change (String.eqb x y) with b
         end;
  cbv beta iota.

(** * Extraction *)

Section Extraction.

Context (E : Env).

Lemma push_links_omap baseUrl (l : list Element) (acc : list LinkRecord) :
  fold_left
    (fun links element =>
       match attr "href" element with
       | Some href =>
           if String.eqb href "" then links
           else match new_URL E href baseUrl with
                | Some absoluteUrl =>
                    (links ++ [ {| l_text := trim (el_text element);
                                   l_url := absoluteUrl;
                                   l_title := or_else (attr "title" element) "";
                                   l_target := Some (or_else (attr "target" element) "_self") |} ])%list
                | None => links
                end
       | None => links
       end) l acc
  = (acc ++ omap (link_of E baseUrl) l)%list.
Proof.
  revert acc. induction l as [|e l IH]; intros acc; simpl.
  - by rewrite app_nil_r.
  - rewrite IH. unfold link_of at 2.
    destruct (attr "href" e) as [href|]; [|done].
    destruct (String.eqb href ""); [done|].
    destruct (new_URL E href baseUrl); simpl; [|done].
    by rewrite <- app_assoc.
Qed.

Lemma extractLinks_omap d baseUrl :
  extractLinks E d baseUrl = omap (link_of E baseUrl) (anchors d).
Proof. unfold extractLinks, anchors. by rewrite push_links_omap. Qed.

Lemma link_of_url baseUrl e : l_url <$> link_of E baseUrl e = destination E baseUrl e.
Proof.
  unfold link_of, destination.
  destruct (attr "href" e) as [href|]; [|done].
  destruct (String.eqb href ""); [done|].
  by destruct (new_URL E href baseUrl).
Qed.

(** No link is ever extracted relative to a link record. *)
Lemma link_of_object l e : link_of E (UObj l) e = None.
Proof.
  unfold link_of, new_URL.
  destruct (attr "href" e) as [href|]; [|done].
  by destruct (String.eqb href "").
Qed.

Lemma extractLinks_object d l : extractLinks E d (UObj l) = [].
Proof.
  rewrite extractLinks_omap. induction (anchors d) as [|e es IH]; [done|].
  cbn [omap list_omap]. by rewrite link_of_object.
Qed.

End Extraction.

(** C7 (as amended): the links of a page record hold one record for every
    anchor whose non-empty [href] resolves against the page URL, in document
    order; anchors that resolve to the same address are all kept. *)
Theorem extractPageData_links_document_order (E : Env) (d : Dom) (url : JsUrl)
    (response : ResponseView) (timestamp : string) :
  l_url <$> p_links (extractPageData E d url response timestamp)
  = omap (destination E url) (anchors d).
Proof.
  cbn [p_links extractPageData]. rewrite extractLinks_omap.
  induction (anchors d) as [|e es IH]; [done|].
  cbn [omap list_omap]. rewrite <- link_of_url, <- IH.
  by destruct (link_of E url e).
Qed.

(** C7 (as stated) fails: two anchors to one address give two link records
    with that address. *)
Lemma duplicate_links_are_kept :
  let page := extractPageData Sample.online Sample.twice (UStr Sample.seed)
                (view_of (Sample.reply 200 "seed")) "now" in
  l_url <$> p_links page
    = ["https://example.test/a"; "https://example.test/a"; "https://example.test/b"]
  /\ ~ NoDup (l_url <$> p_links page).
Proof.
  split; [reflexivity|].
  intros H. vm_compute in H. inversion H as [|x l Hnotin _]; subst.
  apply Hnotin. by left.
Qed.

(** * Traces *)

Lemma page_requests_app t1 t2 :
  page_requests (t1 ++ t2) = (page_requests t1 ++ page_requests t2)%list.
Proof. apply omap_app. Qed.

Lemma robots_fetches_app t1 t2 :
  robots_fetches (t1 ++ t2) = (robots_fetches t1 ++ robots_fetches t2)%list.
Proof. apply omap_app. Qed.

(** * Robots gate *)

(** The three ways of a robots check on a well-formed URL. *)
Lemma checkRobotsTxt_cases (E : Env) (u protocol host : string) (s : Crawler) :
  URL_parse E u = Some (protocol, host) ->
  let robotsUrl := protocol +:+ "//" +:+ host +:+ "/robots.txt" in
  match robotsCache s !! robotsUrl with
  | Some robots => checkRobotsTxt E (UStr u) s = (Ok (isAllowed robots u), s)
  | None =>
      match fetch_robots E robotsUrl (length (trace s)) with
      | Some robots =>
          checkRobotsTxt E (UStr u) s
          = (Ok (isAllowed robots u),
             {| visitedUrls := visitedUrls s; crawledData := crawledData s;
                robotsCache := <[robotsUrl := robots]> (robotsCache s);
                trace := trace s ++ [EvRobotsGet robotsUrl] |})
      | None =>
          checkRobotsTxt E (UStr u) s
          = (Ok true,
             {| visitedUrls := visitedUrls s; crawledData := crawledData s;
                robotsCache := robotsCache s;
                trace := trace s ++ [EvRobotsGet robotsUrl] |})
      end
  end.
Proof.
  intros Hparse robotsUrl. unfold checkRobotsTxt. rewrite Hparse.
  fold robotsUrl. run_monad.
  destruct (robotsCache s !! robotsUrl) as [robots|] eqn:Hcache; [done|].
  unfold fetch_robots, axios_result.
  destruct (http_get E robotsUrl (length (trace s))) as [msg|r]; [done|].
  run_monad. destruct (status_2xx (r_status r)); [|done].
  by destruct (robotsParser E robotsUrl (r_data r)).
Qed.

(** C5 (as amended): a successful robots.txt fetch caches the parsed rule
    set under the robots URL of the host, and a check that finds the host in
    the cache answers from it without any I/O and without changing the
    crawler; after a fetch or parse failure the check answers "allow",
    records the fetch and caches nothing. *)
Theorem checkRobotsTxt_cache (E : Env) (u protocol host : string) (s : Crawler) :
  URL_parse E u = Some (protocol, host) ->
  let robotsUrl := protocol +:+ "//" +:+ host +:+ "/robots.txt" in
  let result := checkRobotsTxt E (UStr u) s in
  match robotsCache s !! robotsUrl with
  | Some robots => result = (Ok (isAllowed robots u), s)
  | None =>
      robots_fetches (trace (snd result)) = (robots_fetches (trace s) ++ [robotsUrl])%list
      /\ match fetch_robots E robotsUrl (length (trace s)) with
         | Some robots =>
             fst result = Ok (isAllowed robots u)
             /\ robotsCache (snd result) = <[robotsUrl := robots]> (robotsCache s)
         | None =>
             fst result = Ok true
             /\ robotsCache (snd result) = robotsCache s
         end
  end.
Proof.
  intros Hparse robotsUrl result.
  pose proof (checkRobotsTxt_cases E u protocol host s Hparse) as H.
  cbn zeta in H. fold robotsUrl in H. fold result in H.
  destruct (robotsCache s !! robotsUrl); [done|].
  destruct (fetch_robots E robotsUrl (length (trace s))); rewrite H; cbn;
    by rewrite robots_fetches_app.
Qed.

Lemma checkRobotsTxt_cache_witness :
  let s1 := snd (checkRobotsTxt Sample.with_robots (UStr Sample.seed) new_crawler) in
  robots_fetches (trace s1) = ["https://example.test/robots.txt"]
  /\ is_Some (robotsCache s1 !! "https://example.test/robots.txt")
  /\ checkRobotsTxt Sample.with_robots (UStr "https://example.test/private") s1 = (Ok false, s1).
Proof.
  pose proof (checkRobotsTxt_cache Sample.with_robots Sample.seed "https:" "example.test"
                new_crawler eq_refl) as H1.
  pose proof (checkRobotsTxt_cache Sample.with_robots "https://example.test/private"
                "https:" "example.test"
                (snd (checkRobotsTxt Sample.with_robots (UStr Sample.seed) new_crawler))
                eq_refl) as H2.
  cbn zeta in *. split; [exact (proj1 H1)|]. split; [by eexists|]. exact H2.
Defined.

(** C5 (as stated) fails: while robots.txt is unavailable, every check of the
    same host fetches it again and the cache stays empty. *)
Lemma robots_failure_is_not_cached :
  let s1 := snd (checkRobotsTxt Sample.offline (UStr Sample.seed) new_crawler) in
  let s2 := snd (checkRobotsTxt Sample.offline (UStr Sample.seed) s1) in
  robots_fetches (trace s2)
    = ["https://example.test/robots.txt"; "https://example.test/robots.txt"]
  /\ robotsCache s1 = ∅ /\ robotsCache s2 = ∅.
Proof. by vm_compute. Qed.

(** C6: when the robots.txt of the host of a URL cannot be fetched or parsed,
    the robots check answers "allow". *)
Theorem checkRobotsTxt_fail_open (E : Env) (u : string) (s : Crawler) :
  robots_not_cached E u s ->
  robots_unavailable E u (length (trace s)) ->
  fst (checkRobotsTxt E (UStr u) s) = Ok true.
Proof.
  unfold robots_not_cached, robots_unavailable. intros Hcache Hfail.
  destruct (URL_parse E u) as [[protocol host]|] eqn:Hparse.
  - pose proof (checkRobotsTxt_cases E u protocol host s Hparse) as H.
    cbn zeta in H. rewrite Hcache, Hfail in H. by rewrite H.
  - unfold checkRobotsTxt. by rewrite Hparse.
Qed.

Lemma checkRobotsTxt_fail_open_witness :
  fst (checkRobotsTxt Sample.online (UStr Sample.seed) new_crawler) = Ok true
  /\ fst (checkRobotsTxt Sample.offline (UStr Sample.seed) new_crawler) = Ok true.
Proof.
  split.
  - apply (checkRobotsTxt_fail_open Sample.online Sample.seed new_crawler); reflexivity.
  - apply (checkRobotsTxt_fail_open Sample.offline Sample.seed new_crawler); reflexivity.
Defined.

(** * Metadata of page records *)

(** The record built by [extractPageData] binds all five metadata keys. *)
Lemma extractPageData_meta_keys (E : Env) d url response timestamp k :
  k ∈ metadata_keys ->
  is_Some (p_meta (extractPageData E d url response timestamp) !! k).
Proof.
  unfold metadata_keys. rewrite !elem_of_cons, elem_of_nil.
  intros [->|[->|[->|[->|[->|[]]]]]]; cbn [p_meta extractPageData];
    simplify_map_eq; by eexists.
Qed.

Lemma evaluate_page_meta (E : Env) page timestamp :
  dom (p_meta (evaluate_page E page timestamp))
    = ({["description"]} ∪ {["keywords"]} ∪ {["author"]} : gset string)
  /\ p_meta (evaluate_page E page timestamp) !! "viewport" = None
  /\ p_meta (evaluate_page E page timestamp) !! "charset" = None.
Proof.
  cbn [p_meta evaluate_page]. split; [|by simplify_map_eq].
  rewrite !dom_insert_L, dom_empty_L. set_solver.
Qed.

Lemma crawlWithPuppeteer_result (E : Env) (cfg : Options) url s pageData s' :
  crawlWithPuppeteer E cfg url s = (Ok (Some pageData), s') ->
  exists page timestamp, pageData = evaluate_page E page timestamp.
Proof.
  unfold crawlWithPuppeteer. run_monad.
  destruct (browser_session E (userAgent cfg) (timeout cfg) url (length (trace s)))
    as [page|]; [|done].
  intros [= <- _]. by eexists _, _.
Qed.

(** C8 at the browser method: a page record returned by [crawlWithPuppeteer]
    binds exactly [description], [keywords] and [author]; [viewport] and
    [charset] are absent from its metadata. *)
Theorem crawlWithPuppeteer_meta (E : Env) (cfg : Options) url s pageData s' :
  crawlWithPuppeteer E cfg url s = (Ok (Some pageData), s') ->
  dom (p_meta pageData) = ({["description"]} ∪ {["keywords"]} ∪ {["author"]} : gset string)
  /\ p_meta pageData !! "viewport" = None
  /\ p_meta pageData !! "charset" = None.
Proof.
  intros H. apply crawlWithPuppeteer_result in H as (page & timestamp & ->).
  apply evaluate_page_meta.
Qed.

Lemma crawlWithPuppeteer_meta_witness :
  exists pageData s',
    crawlWithPuppeteer Sample.online Sample.defaults Sample.seed new_crawler
      = (Ok (Some pageData), s')
    /\ p_meta pageData !! "viewport" = None
    /\ p_meta pageData !! "charset" = None.
Proof.
  eexists _, _. split; [reflexivity|].
  eapply (crawlWithPuppeteer_meta Sample.online Sample.defaults Sample.seed new_crawler).
  reflexivity.
Defined.

(** * Revisiting a URL *)

Lemma Set_has_elem (u : string) (l : list JsUrl) :
  UStr u ∈ l -> Set_has (UStr u) l = true.
Proof.
  intros H. unfold Set_has. apply existsb_exists.
  exists (UStr u). split; [by apply list_elem_of_In|]. apply String.eqb_refl.
Qed.

(** C10: [crawlWithAxios] on a URL that is in the visited set returns [null]
    and leaves the crawler as it was: no request, no other I/O, the visited
    set and the page records unchanged. *)
Theorem crawlWithAxios_visited_noop (E : Env) (cfg : Options) (u : string)
    (options : CrawlOptions) (s : Crawler) :
  UStr u ∈ visitedUrls s ->
  crawlWithAxios E cfg (UStr u) options s = (Ok None, s).
Proof.
  intros H. unfold crawlWithAxios, crawl_fuel. cbn [crawlWithAxios_fuel].
  run_monad. by rewrite (Set_has_elem u _ H).
Qed.

Lemma crawlWithAxios_visited_noop_witness :
  let s1 := snd (crawlWithAxios Sample.online Sample.defaults (UStr Sample.seed)
                   {| depth := Some 0; retries_left := None |} new_crawler) in
  visitedUrls s1 = [UStr Sample.seed]
  /\ crawlWithAxios Sample.online Sample.defaults (UStr Sample.seed)
       {| depth := Some 2; retries_left := None |} s1 = (Ok None, s1).
Proof.
  split; [reflexivity|].
  apply (crawlWithAxios_visited_noop Sample.online Sample.defaults Sample.seed).
  vm_compute. by left.
Defined.

(** * Requests and retries *)

Lemma request_rejected_error o :
  request_rejected o -> exists e, axios_result status_2xx o = inl e.
Proof.
  destruct o as [msg|r]; cbn; [by eexists|].
  intros H. unfold status_2xx.
  destruct (200 <=? r_status r) eqn:H1, (r_status r <? 300) eqn:H2; cbn; try by eexists.
  lia.
Qed.

Lemma login_rejected_error o :
  login_rejected o -> exists e, axios_result status_2xx_3xx o = inl e.
Proof.
  destruct o as [msg|r]; cbn; [by eexists|].
  intros H. unfold status_2xx_3xx.
  destruct (200 <=? r_status r) eqn:H1, (r_status r <? 400) eqn:H2; cbn; try by eexists.
  lia.
Qed.

Lemma quiet_refl s : quiet s s.
Proof. done. Qed.

Lemma quiet_trans s1 s2 s3 : quiet s1 s2 -> quiet s2 s3 -> quiet s1 s3.
Proof. unfold quiet. intros (-> & -> & ->) (-> & -> & ->). done. Qed.

Section Requests.

Context (E : Env) (cfg : Options).

Lemma axios_run url headers s :
  axios E url headers s
  = (match axios_result status_2xx (http_request E url headers (length (trace s))) with
     | inl e => Throw e
     | inr r => Ok r
     end, logged s [EvRequest url headers]).
Proof.
  unfold axios. run_monad.
  by destruct (axios_result status_2xx (http_request E url headers (length (trace s)))).
Qed.

(** Whatever the network does, the loop only issues requests for [url]. *)
Lemma request_loop_shape url headers attempts s :
  exists r s' k,
    request_loop E cfg url headers attempts s = (r, s')
    /\ r <> OutOfFuel
    /\ visitedUrls s' = visitedUrls s
    /\ crawledData s' = crawledData s
    /\ robotsCache s' = robotsCache s
    /\ page_requests (trace s') = (page_requests (trace s) ++ replicate k url)%list.
Proof.
  revert s. induction attempts as [|attempt rest IH]; intros s.
  - exists (Ok None), s, 0%nat. cbn. by rewrite app_nil_r.
  - cbn [request_loop]. unfold bind at 1. unfold try_catch. unfold bind at 1.
    rewrite axios_run.
    destruct (axios_result status_2xx _) as [e|response].
    + destruct (attempt =? retries cfg).
      * eexists _, _, 1%nat. run_monad. split; [reflexivity|].
        cbn. by rewrite page_requests_app.
      * run_monad.
        destruct (IH (logged (logged s [EvRequest url headers])
                        [EvDelay (opt_delay cfg * attempt)])) as (r & s' & k & Hrun & Hr & Hv & Hc & Hrc & Ht).
        unfold logged in Hrun. cbn in Hrun.
        eexists r, s', (S k). split; [exact Hrun|]. repeat split; try done.
        rewrite Ht. cbn. rewrite !page_requests_app. cbn.
        by rewrite app_nil_r, <- app_assoc.
    + eexists _, _, 1%nat. run_monad. split; [reflexivity|].
      cbn. by rewrite page_requests_app.
Qed.

(** While every request is rejected and the attempt number differs from
    [retries], the loop goes on: one request per attempt. *)
Lemma request_loop_rejected url headers attempts s :
  (forall t, request_rejected (http_request E url headers t)) ->
  (forall attempt, attempt ∈ attempts -> attempt <> retries cfg) ->
  exists s',
    request_loop E cfg url headers attempts s = (Ok None, s')
    /\ page_requests (trace s')
       = (page_requests (trace s) ++ replicate (length attempts) url)%list.
Proof.
  intros Hfail. revert s. induction attempts as [|attempt rest IH]; intros s Hne.
  - exists s. cbn. by rewrite app_nil_r.
  - cbn [request_loop]. unfold bind at 1. unfold try_catch. unfold bind at 1.
    rewrite axios_run.
    destruct (request_rejected_error _ (Hfail (length (trace s)))) as [e ->].
    destruct (Z.eqb_spec attempt (retries cfg)) as [Heq|_].
    { exfalso. apply (Hne attempt); [by left|done]. }
    run_monad.
    destruct (IH (logged (logged s [EvRequest url headers])
                    [EvDelay (opt_delay cfg * attempt)])) as (s' & Hrun & Ht).
    { intros x Hx. apply Hne. by right. }
    unfold logged in Hrun. cbn in Hrun.
    exists s'. split; [exact Hrun|].
    rewrite Ht. cbn. rewrite !page_requests_app. cbn.
    by rewrite app_nil_r, <- app_assoc.
Qed.

(** When every request is rejected, the attempt whose number equals
    [retries] is the last one: its error is thrown. *)
Lemma request_loop_exhausted url headers attempts s :
  (forall t, request_rejected (http_request E url headers t)) ->
  (forall attempt, attempt ∈ attempts -> attempt <> retries cfg) ->
  exists e s',
    request_loop E cfg url headers (attempts ++ [retries cfg]) s = (Throw e, s')
    /\ page_requests (trace s')
       = (page_requests (trace s) ++ replicate (S (length attempts)) url)%list.
Proof.
  intros Hfail. revert s. induction attempts as [|attempt rest IH]; intros s Hne.
  - cbn [app request_loop]. unfold bind at 1. unfold try_catch. unfold bind at 1.
    rewrite axios_run.
    destruct (request_rejected_error _ (Hfail (length (trace s)))) as [e ->].
    rewrite Z.eqb_refl. run_monad. eexists _, _. split; [reflexivity|].
    cbn. by rewrite page_requests_app.
  - cbn [app request_loop]. unfold bind at 1. unfold try_catch. unfold bind at 1.
    rewrite axios_run.
    destruct (request_rejected_error _ (Hfail (length (trace s)))) as [e ->].
    destruct (Z.eqb_spec attempt (retries cfg)) as [Heq|_].
    { exfalso. apply (Hne attempt); [by left|done]. }
    run_monad.
    destruct (IH (logged (logged s [EvRequest url headers])
                    [EvDelay (opt_delay cfg * attempt)])) as (e' & s' & Hrun & Ht).
    { intros x Hx. apply Hne. by right. }
    unfold logged in Hrun. cbn in Hrun.
    exists e', s'. split; [exact Hrun|].
    rewrite Ht. cbn. rewrite !page_requests_app. cbn.
    by rewrite app_nil_r, <- app_assoc.
Qed.

End Requests.

(** * Authentication *)

Section Authentication.

Context (E : Env) (cfg : Options).

Lemma checkRobotsTxt_quiet url s :
  exists allowed s', checkRobotsTxt E url s = (Ok allowed, s') /\ quiet s s'.
Proof.
  destruct url as [u|l]; [|by exists true, s].
  destruct (URL_parse E u) as [[protocol host]|] eqn:Hparse.
  - pose proof (checkRobotsTxt_cases E u protocol host s Hparse) as H. cbn zeta in H.
    destruct (robotsCache s !! _); [by eexists _, _|].
    destruct (fetch_robots E _ _); rewrite H; eexists _, _; (split; [reflexivity|]);
      unfold quiet; cbn; by rewrite page_requests_app, app_nil_r.
  - exists true, s. unfold checkRobotsTxt. by rewrite Hparse.
Qed.

Lemma authenticateForm_quiet c s :
  exists r s', authenticateForm E c s = (r, s') /\ r <> OutOfFuel /\ quiet s s'.
Proof.
  unfold authenticateForm.
  destruct (loginUrl c) as [url|]; [|by eexists _, _].
  destruct (loginData c) as [form|]; [|by eexists _, _].
  destruct (String.eqb url ""); [by eexists _, _|].
  run_monad.
  assert (quiet s (logged s [EvLoginPost url form])) as Hq.
  { unfold quiet. cbn. by rewrite page_requests_app, app_nil_r. }
  unfold logged in Hq.
  destruct (axios_result status_2xx_3xx _) as [e|response]; run_monad.
  { eexists _, _. split; [reflexivity|]. by split. }
  destruct (r_set_cookie response) as [[|c0 cs]|];
    (eexists _, _; split; [reflexivity|]; by split).
Qed.

Lemma authenticateCookie_quiet c s :
  exists r, authenticateCookie c s = (r, s) /\ r <> OutOfFuel.
Proof.
  unfold authenticateCookie.
  destruct (cookies c) as [[x|l]|]; [|by eexists..].
  destruct (String.eqb x ""); by eexists.
Qed.

Lemma authenticate_quiet s :
  exists r s', authenticate E cfg s = (r, s') /\ r <> OutOfFuel /\ quiet s s'.
Proof.
  unfold authenticate. destruct (auth cfg) as [a|]; [|by eexists _, _].
  run_monad.
  destruct (String.eqb (auth_type a) "basic").
  { destruct (authenticateBasic E (credentials a)); by eexists _, _. }
  destruct (String.eqb (auth_type a) "bearer").
  { destruct (authenticateBearer (credentials a)); by eexists _, _. }
  destruct (String.eqb (auth_type a) "cookie").
  { destruct (authenticateCookie_quiet (credentials a) s) as (r & -> & Hr).
    by eexists _, _. }
  destruct (String.eqb (auth_type a) "form"); [|by eexists _, _].
  apply authenticateForm_quiet.
Qed.

Lemma absent_or_empty_falsy x : absent_or_empty x -> falsy x = true.
Proof. by intros [-> | ->]. Qed.

Lemma request_loop_trace url headers attempts s :
  exists es, trace (snd (request_loop E cfg url headers attempts s)) = (trace s ++ es)%list.
Proof.
  revert s. induction attempts as [|attempt rest IH]; intros s.
  - exists []. cbn. by rewrite app_nil_r.
  - cbn [request_loop]. unfold bind at 1. unfold try_catch. unfold bind at 1.
    rewrite axios_run.
    destruct (axios_result status_2xx _) as [e|response]; [|by eexists].
    destruct (attempt =? retries cfg); [by eexists|].
    unfold logged. run_monad.
    destruct (IH (logged (logged s [EvRequest url headers])
                    [EvDelay (opt_delay cfg * attempt)])) as [es Hes].
    unfold logged in Hes. cbn in Hes. rewrite Hes.
    rewrite <- !app_assoc. by eexists.
Qed.

(** C3 (as amended): with Basic authentication and a username or password
    that is absent or empty, [authenticateBasic] raises the missing
    credentials error without any network call; [authenticate] catches it
    and resolves to [null], leaving the crawler untouched; [makeRequest] then
    runs its request loop with the plain headers, so the target is fetched
    without an [Authorization] header. *)
Theorem basic_auth_missing_credentials (a : Auth) :
  auth cfg = Some a ->
  auth_type a = "basic" ->
  absent_or_empty (username (credentials a)) \/ absent_or_empty (password (credentials a)) ->
  authenticateBasic E (credentials a) = inl BasicAuthRequires
  /\ (forall s, authenticate E cfg s = (Ok None, s))
  /\ (forall url s,
        makeRequest E cfg url s
        = request_loop E cfg url (base_headers cfg) (seqZ 1 (retries cfg)) s)
  /\ base_headers cfg !! "Authorization" = None
  /\ (forall url s, 1 <= retries cfg ->
        exists rest,
          trace (snd (makeRequest E cfg url s))
          = (trace s ++ EvRequest url (base_headers cfg) :: rest)%list).
Proof.
  intros Hauth Htype Hmissing.
  assert (authenticateBasic E (credentials a) = inl BasicAuthRequires) as Hbasic.
  { unfold authenticateBasic.
    destruct Hmissing as [H|H]; apply absent_or_empty_falsy in H; rewrite H; [done|].
    by rewrite orb_true_r. }
  assert (forall s, authenticate E cfg s = (Ok None, s)) as Hnull.
  { intros s. unfold authenticate. rewrite Hauth, Htype. compare_literals.
    rewrite Hbasic. by run_monad. }
  assert (forall url s,
             makeRequest E cfg url s
             = request_loop E cfg url (base_headers cfg) (seqZ 1 (retries cfg)) s) as Hloop.
  { intros url s. unfold makeRequest. unfold bind. rewrite Hnull.
    unfold request_headers. cbn [default]. by rewrite (left_id_L ∅ (∪)). }
  repeat split; try done.
  intros url s Hretries. rewrite Hloop.
  rewrite seqZ_cons by lia. cbn [request_loop].
  unfold bind at 1. unfold try_catch. unfold bind at 1. rewrite axios_run.
  destruct (axios_result status_2xx _) as [e|response]; [|by eexists].
  destruct (1 =? retries cfg); [by eexists|].
  unfold logged. run_monad.
  destruct (request_loop_trace url (base_headers cfg) (seqZ (Z.succ 1) (Z.pred (retries cfg)))
              (logged (logged s [EvRequest url (base_headers cfg)])
                 [EvDelay (opt_delay cfg * 1)])) as [es Hes].
  unfold logged in Hes. cbn in Hes. rewrite Hes.
  rewrite <- !app_assoc. by eexists.
Qed.

End Authentication.

Lemma basic_auth_missing_credentials_witness :
  let cfg := Sample.with_auth Sample.basic_empty_password in
  authenticate Sample.offline cfg new_crawler = (Ok None, new_crawler)
  /\ exists rest,
       trace (snd (makeRequest Sample.online cfg (UStr Sample.seed) new_crawler))
       = EvRequest (UStr Sample.seed) (base_headers cfg) :: rest.
Proof.
  pose proof (basic_auth_missing_credentials Sample.offline
                (Sample.with_auth Sample.basic_empty_password)
                Sample.basic_empty_password eq_refl eq_refl
                (or_intror (or_intror eq_refl))) as H1.
  pose proof (basic_auth_missing_credentials Sample.online
                (Sample.with_auth Sample.basic_empty_password)
                Sample.basic_empty_password eq_refl eq_refl
                (or_intror (or_intror eq_refl))) as H2.
  split.
  - apply H1.
  - destruct H2 as (_ & _ & _ & _ & H2).
    apply (H2 (UStr Sample.seed) new_crawler). cbn. lia.
Defined.

(** C3 (as stated) fails: with Basic authentication and an empty password,
    [makeRequest] raises nothing; it fetches the target, without an
    [Authorization] header, and returns the response. *)
Lemma empty_password_fetch_proceeds :
  let cfg := Sample.with_auth Sample.basic_empty_password in
  let result := makeRequest Sample.online cfg (UStr Sample.seed) new_crawler in
  fst result = Ok (Some (Sample.reply 200 "seed"))
  /\ trace (snd result) = [EvRequest (UStr Sample.seed) (base_headers cfg)]
  /\ base_headers cfg !! "Authorization" = None.
Proof. by vm_compute. Qed.

(** * The number of attempts of [makeRequest] *)

Lemma attempts_last (n : Z) :
  1 <= n ->
  seqZ 1 n = (seqZ 1 (n - 1) ++ [n])%list
  /\ (forall attempt, attempt ∈ seqZ 1 (n - 1) -> attempt <> n)
  /\ S (length (seqZ 1 (n - 1))) = Z.to_nat n.
Proof.
  intros Hn. split; [|split].
  - replace n with (Z.of_nat (S (Z.to_nat (n - 1)))) at 1 by lia.
    rewrite seqZ_S. do 2 f_equal; lia.
  - intros attempt [_ H]%elem_of_seqZ. lia.
  - rewrite length_seqZ. lia.
Qed.

(** C1 on the code: when authentication resolves and every request for the
    URL is rejected, [makeRequest] issues exactly [retries] requests, the
    first one included, and then throws the last error. With [retries = 3]
    that is 3 attempts in total. *)
Theorem makeRequest_attempts (E : Env) (cfg : Options) (url : JsUrl) (s : Crawler) :
  1 <= retries cfg ->
  (forall headers t, request_rejected (http_request E url headers t)) ->
  (exists authHeaders, fst (authenticate E cfg s) = Ok authHeaders) ->
  exists e s',
    makeRequest E cfg url s = (Throw e, s')
    /\ page_requests (trace s')
       = (page_requests (trace s) ++ replicate (Z.to_nat (retries cfg)) url)%list.
Proof.
  intros Hretries Hfail [authHeaders Hauth].
  destruct (authenticate_quiet E cfg s) as (r & s1 & Hrun & _ & _ & _ & Hreq).
  rewrite Hrun in Hauth. cbn in Hauth. subst r.
  unfold makeRequest. unfold bind. rewrite Hrun.
  destruct (attempts_last (retries cfg) Hretries) as (-> & Hne & <-).
  destruct (request_loop_exhausted E cfg url (request_headers cfg authHeaders)
              (seqZ 1 (retries cfg - 1)) s1 (Hfail _) Hne) as (e & s' & -> & Ht).
  exists e, s'. split; [done|]. by rewrite Ht, Hreq.
Qed.

Lemma makeRequest_attempts_witness :
  retries Sample.defaults = 3
  /\ exists e s',
       makeRequest Sample.offline Sample.defaults (UStr Sample.seed) new_crawler = (Throw e, s')
       /\ page_requests (trace s')
          = [UStr Sample.seed; UStr Sample.seed; UStr Sample.seed].
Proof.
  split; [reflexivity|].
  apply (makeRequest_attempts Sample.offline Sample.defaults (UStr Sample.seed) new_crawler).
  - cbn. lia.
  - intros headers t. exact I.
  - by exists None.
Defined.

(** With [retries = 0] the loop body never runs: no request is made, even to
    a server that would answer, and [makeRequest] returns [undefined]. *)
Example makeRequest_without_retries :
  makeRequest Sample.online Sample.no_retries (UStr Sample.seed) new_crawler
  = (Ok None, new_crawler).
Proof. reflexivity. Qed.

(** * Form login *)

Section FormLogin.

Context (E : Env) (cfg : Options) (a : Auth) (login : string)
  (form : list (string * string)).

Hypothesis auth_configured : auth cfg = Some a.
Hypothesis auth_is_form : auth_type a = "form".
Hypothesis login_url : loginUrl (credentials a) = Some login.
Hypothesis login_url_not_empty : login <> "".
Hypothesis login_data : loginData (credentials a) = Some form.
Hypothesis login_fails : forall t, login_rejected (http_post E login form t).

Lemma authenticate_login_fails s :
  exists e,
    authenticate E cfg s
    = (Throw (FormAuthenticationFailed e), logged s [EvLoginPost login form]).
Proof.
  unfold authenticate. rewrite auth_configured, auth_is_form. compare_literals.
  run_monad. unfold authenticateForm. rewrite login_url, login_data.
  destruct (String.eqb_spec login "") as [Heq|_]; [done|].
  run_monad.
  destruct (login_rejected_error _ (login_fails (length (trace s)))) as [e ->].
  by exists e.
Qed.

Lemma makeRequest_login_fails url s :
  exists e,
    makeRequest E cfg url s
    = (Throw (FormAuthenticationFailed e), logged s [EvLoginPost login form]).
Proof.
  destruct (authenticate_login_fails s) as [e He].
  exists e. unfold makeRequest, bind. by rewrite He.
Qed.

Lemma logged_login_quiet s : quiet s (logged s [EvLoginPost login form]).
Proof. unfold quiet. cbn. by rewrite page_requests_app, app_nil_r. Qed.

Lemma logged_delay_quiet s ms : quiet s (logged s [EvDelay ms]).
Proof. unfold quiet. cbn. by rewrite page_requests_app, app_nil_r. Qed.

Lemma crawl_login_fails (n : nat) :
  forall url options s,
    (nat_of (retries_left options) < n)%nat ->
    exists s', crawlWithAxios_fuel E cfg n url options s = (Ok None, s') /\ quiet s s'.
Proof.
  induction n as [|n IH]; intros url options s Hfuel; [lia|].
  cbn [crawlWithAxios_fuel]. unfold try_catch. unfold bind at 1.
  unfold get. cbn beta iota.
  destruct (Set_has url (visitedUrls s)); [by exists s|].
  destruct (maxPages cfg <=? Z.of_nat (length (visitedUrls s))); [by exists s|].
  unfold bind at 1.
  assert (exists allowed s1,
             (if respectRobots cfg then checkRobotsTxt E url else ret true) s
             = (Ok allowed, s1) /\ quiet s s1) as (allowed & s1 & -> & Hq1).
  { destruct (respectRobots cfg); [apply checkRobotsTxt_quiet|by exists true, s]. }
  destruct allowed; cbn [negb]; [|by exists s1].
  unfold bind at 1.
  destruct (makeRequest_login_fails url s1) as [e ->].
  pose proof (logged_login_quiet s1) as Hq2.
  destruct (positive_opt (retries_left options)) eqn:Hpos.
  - unfold bind at 1. unfold delay, emit. cbn beta iota.
    destruct (IH url {| depth := depth options;
                        retries_left := (fun n => n - 1) <$> retries_left options |}
                (logged (logged s1 [EvLoginPost login form]) [EvDelay (opt_delay cfg * 2)]))
      as (s' & Hrun & Hq3).
    { destruct (retries_left options) as [r|]; [|done].
      unfold nat_of in *. cbn in *. apply Z.ltb_lt in Hpos. lia. }
    exists s'. split; [exact Hrun|].
    eapply quiet_trans; [exact Hq1|]. eapply quiet_trans; [exact Hq2|].
    eapply quiet_trans; [apply logged_delay_quiet|exact Hq3].
  - exists (logged s1 [EvLoginPost login form]). split; [done|].
    eapply quiet_trans; [exact Hq1|exact Hq2].
Qed.

(** C2: with form login configured and a login POST that is rejected (no
    response, or a status outside 2xx-3xx), [makeRequest] fails with the
    login error before any page request, and [crawlWithAxios] returns
    [null] without having issued a page request, visited a URL or stored a
    page record. *)
Theorem form_login_failure_aborts :
  (forall url s,
      exists e s',
        makeRequest E cfg url s = (Throw (FormAuthenticationFailed e), s')
        /\ quiet s s')
  /\ (forall url options s,
        exists s', crawlWithAxios E cfg url options s = (Ok None, s') /\ quiet s s').
Proof.
  split.
  - intros url s. destruct (makeRequest_login_fails url s) as [e He].
    exists e, (logged s [EvLoginPost login form]). split; [done|].
    apply logged_login_quiet.
  - intros url options s. apply crawl_login_fails. unfold crawl_fuel. lia.
Qed.

End FormLogin.

Lemma form_login_failure_aborts_witness :
  let cfg := Sample.with_auth Sample.form_login in
  exists s',
    crawlWithAxios Sample.online cfg (UStr Sample.seed)
      {| depth := Some 2; retries_left := Some 1 |} new_crawler = (Ok None, s')
    /\ quiet new_crawler s'.
Proof.
  apply (form_login_failure_aborts Sample.online (Sample.with_auth Sample.form_login)
           Sample.form_login "https://example.test/login"
           [("user", "alice"); ("pass", "wrong")]); try reflexivity.
  - discriminate.
  - intros t. cbn. lia.
Defined.

(** * The traversal of [crawlWithAxios] *)

Section Traversal.

Context (E : Env) (cfg : Options).

Lemma axios_result_reply validateStatus o response :
  axios_result validateStatus o = inr response -> o = HttpReply response.
Proof.
  destruct o as [msg|r]; cbn; [done|].
  destruct (validateStatus (r_status r)); [|done]. by intros [= ->].
Qed.

(** A response returned by the loop is a reply of the network to a request
    for [url]. *)
Lemma request_loop_response url headers attempts s response s' :
  request_loop E cfg url headers attempts s = (Ok (Some response), s') ->
  exists t, http_request E url headers t = HttpReply response.
Proof.
  revert s. induction attempts as [|attempt rest IH]; intros s; [done|].
  cbn [request_loop]. unfold bind at 1. unfold try_catch. unfold bind at 1.
  rewrite axios_run.
  destruct (axios_result status_2xx _) as [e|r] eqn:Hr.
  - destruct (attempt =? retries cfg); [done|].
    unfold logged. run_monad. apply IH.
  - run_monad. intros [= -> _]. apply axios_result_reply in Hr. by eexists.
Qed.

Lemma makeRequest_shape url s :
  exists r s' k,
    makeRequest E cfg url s = (r, s')
    /\ r <> OutOfFuel
    /\ visitedUrls s' = visitedUrls s
    /\ crawledData s' = crawledData s
    /\ page_requests (trace s') = (page_requests (trace s) ++ replicate k url)%list
    /\ (forall response, r = Ok (Some response) ->
          exists headers t, http_request E url headers t = HttpReply response).
Proof.
  destruct (authenticate_quiet E cfg s) as (r1 & s1 & Hrun & Hr1 & Hv & Hc & Hreq).
  unfold makeRequest, bind. rewrite Hrun.
  destruct r1 as [authHeaders|e|]; [| |done].
  - destruct (request_loop_shape E cfg url (request_headers cfg authHeaders)
                (seqZ 1 (retries cfg)) s1) as (r & s' & k & Hloop & Hr & Hv' & Hc' & _ & Hreq').
    exists r, s', k. rewrite Hloop. repeat split; try congruence.
    intros response ->. apply request_loop_response in Hloop as [t Ht]. by eexists _, _.
  - exists (Throw e), s1, 0%nat. repeat split; try done.
    cbn. by rewrite app_nil_r.
Qed.

Lemma linked_from_object l x : ~ linked_from E (UObj l) x.
Proof.
  intros (headers & t & response & _ & H).
  rewrite extractLinks_object in H. by apply elem_of_nil in H.
Qed.

Lemma nothing_linked_from_object l objs : Forall (linked_from E (UObj l)) objs -> objs = [].
Proof.
  destruct objs as [|x objs]; [done|].
  intros [H _]%Forall_cons. by apply linked_from_object in H.
Qed.

Lemma Set_add_length v l : (length (Set_add v l) <= S (length l))%nat.
Proof.
  unfold Set_add. destruct (Set_has v l); [lia|].
  rewrite length_app. cbn. lia.
Qed.

(** The loop over the links of a page. *)
Lemma for_each_links n options links s :
  (forall link s0,
      crawl_ok E cfg (UObj link) s0 (crawlWithAxios_fuel E cfg n (UObj link) options s0)) ->
  exists s' objs,
    for_each links
      (fun link =>
         delay (opt_delay cfg) ;;
         crawlWithAxios_fuel E cfg n (UObj link) options ;;
         ret tt) s = (Ok tt, s')
    /\ page_requests (trace s') = (page_requests (trace s) ++ (UObj <$> objs))%list
    /\ Forall (fun l => l ∈ links) objs
    /\ (within_bound cfg s -> within_bound cfg s').
Proof.
  intros Hchild. revert s. induction links as [|link rest IH]; intros s.
  - exists s, []. cbn. by rewrite app_nil_r.
  - cbn [for_each]. unfold bind at 1. unfold bind at 1. unfold delay, emit.
    cbn beta iota. unfold bind at 1.
    destruct (Hchild link (logged s [EvDelay (opt_delay cfg)]))
      as (r & s1 & k & objs0 & Hrun & Hreq & Hobjs & Hbound).
    unfold logged in Hrun. rewrite Hrun. unfold ret at 1. cbn beta iota.
    apply nothing_linked_from_object in Hobjs as ->.
    destruct (IH s1) as (s' & objs & Hrest & Hreq' & Hin & Hbound').
    exists s', (replicate k link ++ objs)%list. split; [exact Hrest|].
    split; [|split].
    + rewrite Hreq', Hreq. cbn. rewrite page_requests_app. cbn.
      rewrite !app_nil_r, fmap_app, fmap_replicate. by rewrite <- app_assoc.
    + apply Forall_app_2.
      * apply Forall_replicate. by left.
      * eapply Forall_impl; [exact Hin|]. intros x Hx. by right.
    + intros H. apply Hbound', Hbound, H.
Qed.

Lemma slice0_subseteq {A} n (l : list A) : slice0 n l ⊆ l.
Proof. unfold slice0. destruct (n <? 0); apply subseteq_take. Qed.

Lemma crawlWithAxios_fuel_ok (n : nat) :
  forall url options s,
    (measure options < n)%nat ->
    crawl_ok E cfg url s (crawlWithAxios_fuel E cfg n url options s).
Proof.
  induction n as [|n IH]; intros url options s Hfuel; [lia|].
  assert (forall k s2,
             visitedUrls s2 = visitedUrls s ->
             page_requests (trace s2) = (page_requests (trace s) ++ replicate k url)%list ->
             crawl_ok E cfg url s
               ((if positive_opt (retries_left options) then
                   delay (opt_delay cfg * 2) ;;
                   crawlWithAxios_fuel E cfg n url
                     {| depth := depth options;
                        retries_left := (fun n => n - 1) <$> retries_left options |}
                 else ret None) s2)) as Hretry.
  { intros k s2 Hv Hreq.
    destruct (positive_opt (retries_left options)) eqn:Hpos.
    - unfold bind, delay, emit. cbn beta iota.
      destruct (IH url {| depth := depth options;
                          retries_left := (fun n => n - 1) <$> retries_left options |}
                  (logged s2 [EvDelay (opt_delay cfg * 2)]))
        as (r & s' & k' & objs & Hrun & Hreq' & Hobjs & Hbound).
      { unfold measure in *. cbn.
        destruct (retries_left options) as [x|]; [|done].
        unfold nat_of in *. cbn in *. apply Z.ltb_lt in Hpos. lia. }
      unfold logged in Hrun. exists r, s', (k + k')%nat, objs.
      split; [exact Hrun|]. split; [|split; [exact Hobjs|]].
      + rewrite Hreq'. cbn. rewrite page_requests_app, Hreq. cbn.
        rewrite app_nil_r, replicate_add. by rewrite <- !app_assoc.
      + intros H. apply Hbound. unfold within_bound in *. cbn. by rewrite Hv.
    - exists None, s2, k, []. split; [done|]. split; [|split; [done|]].
      + rewrite Hreq. cbn. by rewrite app_nil_r.
      + unfold within_bound. by rewrite Hv. }
  cbn [crawlWithAxios_fuel]. unfold try_catch. unfold bind at 1.
  unfold get. cbn beta iota.
  assert (crawl_ok E cfg url s (Ok None, s)) as Hnull.
  { exists None, s, 0%nat, []. cbn. by rewrite app_nil_r. }
  destruct (Set_has url (visitedUrls s)); [exact Hnull|].
  destruct (Z.leb_spec (maxPages cfg) (Z.of_nat (length (visitedUrls s)))) as [_|Hroom];
    [exact Hnull|].
  unfold bind at 1.
  assert (exists allowed s1,
             (if respectRobots cfg then checkRobotsTxt E url else ret true) s
             = (Ok allowed, s1) /\ quiet s s1) as (allowed & s1 & -> & Hv1 & _ & Hreq1).
  { destruct (respectRobots cfg); [apply checkRobotsTxt_quiet|by exists true, s]. }
  destruct allowed; cbn [negb].
  2:{ exists None, s1, 0%nat, []. split; [done|]. split; [|split; [done|]].
      - cbn. by rewrite app_nil_r.
      - unfold within_bound. by rewrite Hv1. }
  unfold bind at 1.
  destruct (makeRequest_shape url s1) as (r & s2 & k & -> & Hr & Hv2 & _ & Hreq2 & Hresp).
  rewrite Hv1 in Hv2. rewrite Hreq1 in Hreq2.
  destruct r as [[response|]|e|]; [| | |done].
  - (* the page was fetched *)
    destruct (Hresp response eq_refl) as (headers & t & Hserved).
    unfold bind at 1. unfold clock. cbn beta iota.
    unfold bind at 1. unfold push_crawledData. cbn beta iota.
    unfold bind at 1. unfold add_visited. cbn beta iota.
    cbn [visitedUrls crawledData robotsCache trace].
    set (pageData := extractPageData E _ url _ _).
    set (s3 := {| visitedUrls := Set_add url (visitedUrls s2) |}).
    assert (within_bound cfg s3) as Hbound3.
    { unfold within_bound, s3. cbn. rewrite Hv2.
      pose proof (Set_add_length url (visitedUrls s)). lia. }
    assert (page_requests (trace s3)
            = (page_requests (trace s) ++ replicate k url)%list) as Hreq3 by done.
    unfold bind at 1.
    destruct (positive_opt (depth options)) eqn:Hdepth.
    + destruct (for_each_links n
                  {| depth := (fun n => n - 1) <$> depth options; retries_left := None |}
                  (slice0 (concurrent cfg)
                     (extractLinks E (cheerio_load E (r_data response)) url)) s3)
        as (s' & objs & -> & Hreq' & Hin & Hbound').
      { intros link s0. apply IH. unfold measure in *. cbn.
        destruct (depth options) as [x|]; [|done].
        unfold nat_of in *. cbn in *. apply Z.ltb_lt in Hdepth. lia. }
      exists (Some pageData), s', k, objs. split; [done|].
      split; [by rewrite Hreq', Hreq3, <- app_assoc|].
      split; [|by intros _; apply Hbound'].
      eapply Forall_impl; [exact Hin|]. intros l Hl.
      exists headers, t, response. split; [done|].
      by apply (slice0_subseteq (concurrent cfg)).
    + exists (Some pageData), s3, k, []. split; [done|].
      split; [|done]. rewrite Hreq3. cbn. by rewrite app_nil_r.
  - (* the loop ran out: [response] is undefined *)
    unfold throw. by apply (Hretry k).
  - (* the request failed *)
    by apply (Hretry k).
Qed.

(** The page bound on the direct HTTP path: a call of [crawlWithAxios]
    returns, and a visited set within [maxPages] stays within [maxPages]. *)
Lemma crawlWithAxios_within_bound url options s :
  within_bound cfg s ->
  exists r s', crawlWithAxios E cfg url options s = (Ok r, s') /\ within_bound cfg s'.
Proof.
  intros H.
  destruct (crawlWithAxios_fuel_ok (crawl_fuel options) url options s)
    as (r & s' & _ & _ & Hrun & _ & _ & Hbound).
  { unfold crawl_fuel, measure. lia. }
  exists r, s'. split; [exact Hrun|]. by apply Hbound.
Qed.

End Traversal.


(** A crawl of depth 2 in a world that answers every request: the seed, then
    its three link records; the pages stored for the link records have no
    links and nothing is requested at depth 2. *)
Example crawl_depth_two :
  let s' := snd (crawlWithAxios Sample.online Sample.defaults (UStr Sample.seed)
                   {| depth := Some 2; retries_left := None |} new_crawler) in
  (l_url <$> omap (fun v => match v with UObj l => Some l | UStr _ => None end)
               (page_requests (trace s')))
    = ["https://example.test/a"; "https://example.test/a"; "https://example.test/b"]
  /\ head (page_requests (trace s')) = Some (UStr Sample.seed)
  /\ length (page_requests (trace s')) = 4%nat
  /\ (length ∘ p_links <$> crawledData s') = [3; 0; 0; 0]%nat.
Proof. by vm_compute. Qed.

(** * The page bound on the browser and curl paths *)

(** C4 on the code: [crawlWithPuppeteer] and [crawlWithCurl] add the URL to
    the visited set without looking at [maxPages]. With [maxPages = 1], two
    calls on two URLs leave two visited URLs. *)
Theorem visited_exceeds_maxPages :
  let a := "https://example.test/a" in
  let b := "https://example.test/b" in
  let curl1 := snd (crawlWithCurl Sample.online Sample.one_page a new_crawler) in
  let curl2 := snd (crawlWithCurl Sample.online Sample.one_page b curl1) in
  let page1 := snd (crawlWithPuppeteer Sample.online Sample.one_page a new_crawler) in
  let page2 := snd (crawlWithPuppeteer Sample.online Sample.one_page b page1) in
  maxPages Sample.one_page = 1
  /\ visitedUrls curl2 = [UStr a; UStr b]
  /\ visitedUrls page2 = [UStr a; UStr b]
  /\ ~ within_bound Sample.one_page curl2
  /\ ~ within_bound Sample.one_page page2.
Proof.
  cbv zeta. repeat split; try reflexivity; unfold within_bound; vm_compute; by intros H.
Qed.

(** * More on extraction *)

Lemma push_images_omap (E : Env) baseUrl (l : list Element) (acc : list ImageRecord) :
  i_src <$>
    fold_left
      (fun images element =>
         match attr "src" element with
         | Some src =>
             if String.eqb src "" then images
             else match new_URL E src baseUrl with
                  | Some absoluteUrl =>
                      (images ++ [ {| i_src := absoluteUrl;
                                      i_alt := or_else (attr "alt" element) "";
                                      i_title := or_else (attr "title" element) "";
                                      i_width := Some (or_else (attr "width" element) "");
                                      i_height := Some (or_else (attr "height" element) "") |} ])%list
                  | None => images
                  end
         | None => images
         end) l acc
  = ((i_src <$> acc) ++ omap (image_source E baseUrl) l)%list.
Proof.
  revert acc. induction l as [|e l IH]; intros acc; cbn [fold_left omap list_omap].
  - by rewrite app_nil_r.
  - rewrite IH. unfold image_source at 2.
    destruct (attr "src" e) as [src|]; [|done].
    destruct (String.eqb src ""); [done|].
    destruct (new_URL E src baseUrl); [|done].
    rewrite fmap_app. cbn. by rewrite <- app_assoc.
Qed.

(** The images of a page record: one record for every [img] element whose
    non-empty [src] resolves against the page URL, in document order. *)
Theorem extractPageData_images_document_order (E : Env) (d : Dom) (url : JsUrl)
    (response : ResponseView) (timestamp : string) :
  i_src <$> p_images (extractPageData E d url response timestamp)
  = omap (image_source E url) (images_with_src d).
Proof.
  cbn [p_images extractPageData]. unfold extractImages, images_with_src.
  by rewrite push_images_omap.
Qed.

(** A page record built for a link record has neither links nor images,
    whatever the document: nothing resolves against a link record. *)
Theorem extractPageData_object_base (E : Env) (d : Dom) (l : LinkRecord)
    (response : ResponseView) (timestamp : string) :
  p_links (extractPageData E d (UObj l) response timestamp) = []
  /\ p_images (extractPageData E d (UObj l) response timestamp) = [].
Proof.
  split.
  - cbn [p_links extractPageData]. apply extractLinks_object.
  - apply fmap_nil_inv with (f := i_src).
    rewrite extractPageData_images_document_order.
    induction (images_with_src d) as [|e es IH]; [done|].
    cbn [omap list_omap]. rewrite IH. unfold image_source, new_URL.
    destruct (attr "src" e) as [src|]; [|done].
    by destruct (String.eqb src "").
Qed.

Lemma or_else_not_empty a b : b <> "" -> or_else a b <> "".
Proof.
  intros Hb. unfold or_else. destruct a as [s|]; [|done].
  by destruct (String.eqb_spec s "").
Qed.

(** The title of a page record is never empty; without a [title] and an
    [h1] element it is 'No Title'. *)
Theorem extractPageData_title (E : Env) (d : Dom) (url : JsUrl)
    (response : ResponseView) (timestamp : string) :
  p_title (extractPageData E d url response timestamp) <> ""
  /\ (select_tag "title" (dom_elements d) = [] ->
      select_tag "h1" (dom_elements d) = [] ->
      p_title (extractPageData E d url response timestamp) = "No Title").
Proof.
  cbn [p_title extractPageData]. split.
  - apply or_else_not_empty, or_else_not_empty. discriminate.
  - by intros -> ->.
Qed.

Lemma trim_start_headed s : headed (trim_start s).
Proof.
  induction s as [|c s IH]; [done|]. cbn.
  by destruct (is_space c) eqn:Hc.
Qed.

Lemma trim_start_of_headed s : headed s -> trim_start s = s.
Proof. destruct s as [|c s]; [done|]. cbn. by intros ->. Qed.

Lemma trim_end_headed s : headed s -> headed (trim_end s).
Proof.
  destruct s as [|c s]; [done|]. cbn. intros Hc.
  destruct (trim_end s); cbn; by rewrite ?Hc.
Qed.

Lemma trim_end_idempotent s : trim_end (trim_end s) = trim_end s.
Proof.
  induction s as [|c s IH]; [done|]. cbn.
  destruct (trim_end s) as [|c' r] eqn:Hr.
  - destruct (is_space c) eqn:Hc; [done|]. cbn. by rewrite Hc.
  - cbn [trim_end]. cbn [trim_end] in IH. by rewrite IH.
Qed.

Lemma trim_trimmed s : trimmed (trim s).
Proof.
  unfold trimmed, trim.
  rewrite (trim_start_of_headed (trim_end (trim_start s))).
  - apply trim_end_idempotent.
  - apply trim_end_headed, trim_start_headed.
Qed.

Lemma or_else_trimmed s b : trimmed b -> trimmed (or_else (Some (trim s)) b).
Proof.
  intros Hb. unfold or_else. destruct (String.eqb (trim s) ""); [done|].
  apply trim_trimmed.
Qed.

(** The title and the text of a page record carry no white space at either
    end: trimming them again changes nothing. *)
Theorem extractPageData_trimmed (E : Env) (d : Dom) (url : JsUrl)
    (response : ResponseView) (timestamp : string) :
  trimmed (p_title (extractPageData E d url response timestamp))
  /\ trimmed (p_text (extractPageData E d url response timestamp)).
Proof.
  cbn [p_title p_text extractPageData]. split; [|apply trim_trimmed].
  apply or_else_trimmed, or_else_trimmed. reflexivity.
Qed.

(** [cookie.split(';')[0]] is the part of the cookie before its first
    semicolon: it holds no semicolon, and the cookie is that part alone or
    that part, a semicolon and the attributes. *)
Theorem before_semicolon_prefix (cookie : string) :
  has_semicolon (before_semicolon cookie) = false
  /\ (if has_semicolon cookie
      then exists attributes, cookie = before_semicolon cookie +:+ ";" +:+ attributes
      else cookie = before_semicolon cookie).
Proof.
  induction cookie as [|c rest [IH1 IH2]]; [done|].
  cbn [before_semicolon has_semicolon].
  destruct (Ascii.eqb_spec c ";") as [->|Hc]; cbn [orb].
  - split; [done|]. by exists rest.
  - cbn [has_semicolon]. destruct (Ascii.eqb_spec c ";") as [|_]; [done|].
    cbn [orb]. split; [done|].
    destruct (has_semicolon rest).
    + destruct IH2 as [attributes Heq]. exists attributes.
      change (String c rest = String c (before_semicolon rest +:+ ";" +:+ attributes)).
      by rewrite <- Heq.
    + by rewrite <- IH2.
Qed.

(** * The schedule of attempts *)

Lemma logged_logged s es1 es2 : logged (logged s es1) es2 = logged s (es1 ++ es2).
Proof. unfold logged. cbn. by rewrite app_assoc. Qed.

Lemma logged_nil s : logged s [] = s.
Proof. destruct s. unfold logged. cbn. by rewrite app_nil_r. Qed.

Lemma status_2xx_true status : 200 <= status < 300 -> status_2xx status = true.
Proof. intros H. unfold status_2xx. apply andb_true_iff. split; [apply Z.leb_le|apply Z.ltb_lt]; lia. Qed.

Lemma status_2xx_3xx_true status : 200 <= status < 400 -> status_2xx_3xx status = true.
Proof. intros H. unfold status_2xx_3xx. apply andb_true_iff. split; [apply Z.leb_le|apply Z.ltb_lt]; lia. Qed.

Section Backoff.

Context (E : Env) (cfg : Options) (url : JsUrl) (headers : gmap string string).

(** Attempts that are rejected and are not the last one each leave a request
    and a wait, and the loop goes on with the remaining attempts. Every
    failed attempt takes two moments. *)
Lemma request_loop_skip attempts rest s :
  (forall i, (i < length attempts)%nat ->
             request_rejected (http_request E url headers (length (trace s) + 2 * i)%nat)) ->
  (forall attempt, attempt ∈ attempts -> attempt <> retries cfg) ->
  request_loop E cfg url headers (attempts ++ rest) s
  = request_loop E cfg url headers rest (logged s (failed_attempts cfg url headers attempts)).
Proof.
  revert s. induction attempts as [|attempt attempts IH]; intros s Hfail Hne.
  - cbn. by rewrite logged_nil.
  - cbn [app request_loop]. unfold bind at 1. unfold try_catch. unfold bind at 1.
    rewrite axios_run.
    pose proof (Hfail 0%nat ltac:(cbn; lia)) as H0.
    rewrite Nat.mul_0_r, Nat.add_0_r in H0.
    destruct (request_rejected_error _ H0) as [e ->].
    destruct (Z.eqb_spec attempt (retries cfg)) as [Heq|_].
    { exfalso. apply (Hne attempt); [by left|done]. }
    unfold delay, bind, emit, ret. cbn beta iota.
    change {| visitedUrls := visitedUrls (logged s [EvRequest url headers]);
              crawledData := crawledData (logged s [EvRequest url headers]);
              robotsCache := robotsCache (logged s [EvRequest url headers]);
              trace := trace (logged s [EvRequest url headers])
                         ++ [EvDelay (opt_delay cfg * attempt)] |}
      with (logged (logged s [EvRequest url headers]) [EvDelay (opt_delay cfg * attempt)]).
    rewrite logged_logged. rewrite IH.
    + by rewrite logged_logged.
    + intros i Hi. cbn [logged trace]. rewrite length_app. cbn [length app].
      replace (length (trace s) + 2 + 2 * i)%nat with (length (trace s) + 2 * S i)%nat by lia.
      apply Hfail. cbn. lia.
    + intros x Hx. apply Hne. by right.
Qed.

Lemma request_loop_events attempts s :
  exists es,
    trace (snd (request_loop E cfg url headers attempts s)) = (trace s ++ es)%list
    /\ Forall (loop_event url headers) es.
Proof.
  revert s. induction attempts as [|attempt rest IH]; intros s.
  - exists []. cbn. by rewrite app_nil_r.
  - cbn [request_loop]. unfold bind at 1. unfold try_catch. unfold bind at 1.
    rewrite axios_run.
    assert (loop_event url headers (EvRequest url headers)) as Hreq by by left.
    destruct (axios_result status_2xx _) as [e|response].
    2:{ exists [EvRequest url headers]. split; [done|]. by apply Forall_singleton. }
    destruct (attempt =? retries cfg).
    { exists [EvRequest url headers]. split; [done|]. by apply Forall_singleton. }
    unfold logged. run_monad.
    destruct (IH (logged (logged s [EvRequest url headers])
                    [EvDelay (opt_delay cfg * attempt)])) as (es & Hes & Hall).
    unfold logged in Hes. cbn in Hes. rewrite Hes.
    exists (EvRequest url headers :: EvDelay (opt_delay cfg * attempt) :: es).
    split; [by rewrite <- !app_assoc|].
    repeat apply Forall_cons_2; try done. right. by eexists.
Qed.

End Backoff.

Lemma makeRequest_events (E : Env) (cfg : Options) url s authHeaders s1 :
  authenticate E cfg s = (Ok authHeaders, s1) ->
  exists es,
    trace (snd (makeRequest E cfg url s)) = (trace s1 ++ es)%list
    /\ Forall (loop_event url (request_headers cfg authHeaders)) es.
Proof.
  intros Hauth. unfold makeRequest, bind. rewrite Hauth. apply request_loop_events.
Qed.

(** Linear backoff: when authentication resolves and every request is
    rejected, [makeRequest] leaves in the trace, for each attempt but the
    last, the request followed by a wait of [delay * attempt], and then the
    last request, after which it throws without waiting. *)
Theorem makeRequest_backoff (E : Env) (cfg : Options) (url : JsUrl) (s s1 : Crawler)
    (authHeaders : option (gmap string string)) :
  1 <= retries cfg ->
  (forall t, request_rejected (http_request E url (request_headers cfg authHeaders) t)) ->
  authenticate E cfg s = (Ok authHeaders, s1) ->
  let headers := request_headers cfg authHeaders in
  exists e,
    makeRequest E cfg url s
    = (Throw e,
       logged s1 (failed_attempts cfg url headers (seqZ 1 (retries cfg - 1))
                  ++ [EvRequest url headers])).
Proof.
  intros Hretries Hfail Hauth headers. fold headers in Hfail.
  unfold makeRequest, bind. rewrite Hauth. fold headers.
  destruct (attempts_last (retries cfg) Hretries) as (-> & Hne & _).
  rewrite request_loop_skip; [|by intros; apply Hfail|exact Hne].
  cbn [request_loop]. unfold bind at 1. unfold try_catch. unfold bind at 1.
  rewrite axios_run.
  destruct (request_rejected_error _ (Hfail (length (trace (logged s1
              (failed_attempts cfg url headers (seqZ 1 (retries cfg - 1)))))))) as [e ->].
  rewrite Z.eqb_refl. exists e. unfold throw. by rewrite logged_logged.
Qed.

Lemma makeRequest_backoff_witness :
  let result := makeRequest Sample.offline Sample.defaults (UStr Sample.seed) new_crawler in
  delays (trace (snd result)) = [1000; 2000]
  /\ length (page_requests (trace (snd result))) = 3%nat.
Proof.
  destruct (makeRequest_backoff Sample.offline Sample.defaults (UStr Sample.seed)
              new_crawler new_crawler None) as [e He].
  - cbn. lia.
  - intros t. exact I.
  - reflexivity.
  - cbv zeta. rewrite He. by vm_compute.
Defined.

(** The first accepted attempt ends the loop: when authentication resolves,
    the first [failures] requests are rejected and the next one, still
    within [retries], is answered with a 2xx status, [makeRequest] returns
    that response after [failures + 1] requests and the waits
    [delay * 1, ..., delay * failures]; no later attempt is made. *)
Theorem makeRequest_first_accepted (E : Env) (cfg : Options) (url : JsUrl) (s s1 : Crawler)
    (authHeaders : option (gmap string string)) (failures : nat) (response : Response) :
  Z.of_nat failures < retries cfg ->
  authenticate E cfg s = (Ok authHeaders, s1) ->
  let headers := request_headers cfg authHeaders in
  (forall i, (i < failures)%nat ->
             request_rejected (http_request E url headers (length (trace s1) + 2 * i)%nat)) ->
  http_request E url headers (length (trace s1) + 2 * failures)%nat = HttpReply response ->
  200 <= r_status response < 300 ->
  makeRequest E cfg url s
  = (Ok (Some response),
     logged s1 (failed_attempts cfg url headers (seqZ 1 (Z.of_nat failures))
                ++ [EvRequest url headers])).
Proof.
  intros Hwithin Hauth headers Hfail Hreply Hstatus.
  unfold makeRequest, bind. rewrite Hauth. fold headers.
  replace (retries cfg) with (Z.of_nat failures + (retries cfg - Z.of_nat failures)) at 1 by lia.
  rewrite seqZ_app by lia.
  rewrite (seqZ_cons (1 + Z.of_nat failures)) by lia.
  rewrite request_loop_skip.
  - cbn [request_loop]. unfold bind at 1. unfold try_catch. unfold bind at 1.
    rewrite axios_run.
    assert (length (trace (logged s1 (failed_attempts cfg url headers
                                        (seqZ 1 (Z.of_nat failures)))))
            = (length (trace s1) + 2 * failures)%nat) as ->.
    { cbn [logged trace]. rewrite length_app. f_equal.
      unfold failed_attempts.
      assert (forall l : list Z,
                 length (flat_map (fun attempt =>
                           [EvRequest url headers; EvDelay (opt_delay cfg * attempt)]) l)
                 = (2 * length l)%nat) as Hlen.
      { induction l as [|x l IH]; [done|]. cbn [flat_map length app]. rewrite IH. lia. }
      rewrite Hlen, length_seqZ. lia. }
    rewrite Hreply. cbn [axios_result]. rewrite (status_2xx_true _ Hstatus).
    unfold ret. cbn beta iota. by rewrite logged_logged.
  - rewrite length_seqZ, Nat2Z.id. exact Hfail.
  - intros attempt [_ H]%elem_of_seqZ. lia.
Qed.

Lemma makeRequest_first_accepted_witness :
  let result := makeRequest Sample.flaky Sample.defaults (UStr Sample.seed) new_crawler in
  fst result = Ok (Some (Sample.reply 200 "seed"))
  /\ length (page_requests (trace (snd result))) = 3%nat
  /\ delays (trace (snd result)) = [1000; 2000].
Proof.
  pose proof (makeRequest_first_accepted Sample.flaky Sample.defaults (UStr Sample.seed)
                new_crawler new_crawler None 2 (Sample.reply 200 "seed")) as H.
  cbv zeta in H. rewrite H.
  - by vm_compute.
  - cbn. lia.
  - reflexivity.
  - intros i Hi. destruct i as [|[|i]]; [exact I|exact I|lia].
  - reflexivity.
  - cbn. lia.
Defined.

(** * Authentication headers *)

Section AuthHeaders.

Context (E : Env) (cfg : Options).

Lemma loop_events_carry name value (authHeaders : gmap string string) url es :
  authHeaders !! name = Some value ->
  authHeaders ##ₘ base_headers cfg ->
  Forall (loop_event url (request_headers cfg (Some authHeaders))) es ->
  requests_carry cfg name value es.
Proof.
  intros Hname Hdisjoint Hall. unfold requests_carry.
  eapply Forall_impl; [exact Hall|].
  intros e [->|[ms ->]] u h; [|done].
  intros [= _ <-]. unfold request_headers. cbn [default]. split.
  - by apply lookup_union_Some_l.
  - by apply map_union_subseteq_r.
Qed.

Lemma single_header_carried name value url s s1 :
  authenticate E cfg s = (Ok (Some {[ name := value ]}), s1) ->
  base_headers cfg !! name = None ->
  exists es,
    trace (snd (makeRequest E cfg url s)) = (trace s1 ++ es)%list
    /\ requests_carry cfg name value es.
Proof.
  intros Hauth Hfree.
  destruct (makeRequest_events E cfg url s _ s1 Hauth) as (es & Htrace & Hall).
  exists es. split; [exact Htrace|].
  apply (loop_events_carry name value {[ name := value ]} url).
  - apply lookup_singleton_eq.
  - by apply map_disjoint_singleton_l.
  - exact Hall.
Qed.

(** Basic authentication with both credentials: every request issued by
    [makeRequest] carries [Authorization: Basic base64(username:password)]
    next to all the plain headers, and authentication itself does no I/O. *)
Theorem basic_auth_header (a : Auth) (user pass : string) :
  auth cfg = Some a ->
  auth_type a = "basic" ->
  username (credentials a) = Some user ->
  password (credentials a) = Some pass ->
  user <> "" ->
  pass <> "" ->
  forall url s,
    exists es,
      trace (snd (makeRequest E cfg url s)) = (trace s ++ es)%list
      /\ requests_carry cfg "Authorization"
           ("Basic " +:+ base64 E (user +:+ ":" +:+ pass)) es.
Proof.
  intros Hauth Htype Huser Hpass Hu Hp url s.
  apply single_header_carried; [|done].
  unfold authenticate. rewrite Hauth, Htype. compare_literals.
  unfold authenticateBasic, falsy. rewrite Huser, Hpass.
  destruct (String.eqb_spec user "") as [|_]; [done|].
  destruct (String.eqb_spec pass "") as [|_]; [done|].
  by run_monad.
Qed.

(** Bearer authentication with a token: every request issued by
    [makeRequest] carries [Authorization: Bearer token] next to all the plain
    headers. *)
Theorem bearer_auth_header (a : Auth) (tok : string) :
  auth cfg = Some a ->
  auth_type a = "bearer" ->
  token (credentials a) = Some tok ->
  tok <> "" ->
  forall url s,
    exists es,
      trace (snd (makeRequest E cfg url s)) = (trace s ++ es)%list
      /\ requests_carry cfg "Authorization" ("Bearer " +:+ tok) es.
Proof.
  intros Hauth Htype Htoken Ht url s.
  apply single_header_carried; [|done].
  unfold authenticate. rewrite Hauth, Htype. compare_literals.
  unfold authenticateBearer, falsy. rewrite Htoken.
  destruct (String.eqb_spec tok "") as [|_]; [done|].
  by run_monad.
Qed.

(** Bearer authentication without a token: the error of
    [authenticateBearer] is caught inside [authenticate], which resolves to
    [null] without I/O; [makeRequest] goes on with the plain headers. *)
Theorem bearer_auth_missing_token (a : Auth) :
  auth cfg = Some a ->
  auth_type a = "bearer" ->
  absent_or_empty (token (credentials a)) ->
  (forall s, authenticate E cfg s = (Ok None, s))
  /\ (forall url s,
        makeRequest E cfg url s
        = request_loop E cfg url (base_headers cfg) (seqZ 1 (retries cfg)) s).
Proof.
  intros Hauth Htype Hmissing.
  assert (forall s, authenticate E cfg s = (Ok None, s)) as Hnull.
  { intros s. unfold authenticate. rewrite Hauth, Htype. compare_literals.
    unfold authenticateBearer. rewrite (absent_or_empty_falsy _ Hmissing). by run_monad. }
  split; [exact Hnull|].
  intros url s. unfold makeRequest, bind. rewrite Hnull.
  unfold request_headers. cbn [default]. by rewrite (left_id_L ∅ (∪)).
Qed.

(** Cookie authentication with cookies: every request issued by
    [makeRequest] carries the [Cookie] header, which is the configured
    string, or the [name=value] pairs joined with "; ". *)
Theorem cookie_auth_header (a : Auth) (c : Cookies) :
  auth cfg = Some a ->
  auth_type a = "cookie" ->
  cookies (credentials a) = Some c ->
  c <> CookieString "" ->
  forall url s,
    exists es,
      trace (snd (makeRequest E cfg url s)) = (trace s ++ es)%list
      /\ requests_carry cfg "Cookie" (cookie_header c) es.
Proof.
  intros Hauth Htype Hcookies Hc url s.
  apply single_header_carried; [|done].
  unfold authenticate. rewrite Hauth, Htype. compare_literals.
  run_monad. unfold authenticateCookie. rewrite Hcookies.
  destruct c as [x|l]; [|done].
  destruct (String.eqb_spec x "") as [->|_]; [done|]. done.
Qed.

End AuthHeaders.

Lemma basic_auth_header_witness :
  exists es,
    trace (snd (makeRequest Sample.encoding (Sample.with_auth Sample.basic_alice)
                  (UStr Sample.seed) new_crawler)) = es
    /\ requests_carry (Sample.with_auth Sample.basic_alice) "Authorization"
         "Basic YWxpY2U6c2VjcmV0" es.
Proof.
  destruct (basic_auth_header Sample.encoding (Sample.with_auth Sample.basic_alice)
              Sample.basic_alice "alice" "secret" eq_refl eq_refl eq_refl eq_refl
              ltac:(discriminate) ltac:(discriminate) (UStr Sample.seed) new_crawler)
    as (es & Htrace & Hcarry).
  exists es. split; [exact Htrace|exact Hcarry].
Defined.

Lemma bearer_auth_header_witness :
  exists es,
    trace (snd (makeRequest Sample.online (Sample.with_auth Sample.bearer_token)
                  (UStr Sample.seed) new_crawler)) = es
    /\ requests_carry (Sample.with_auth Sample.bearer_token) "Authorization" "Bearer t0k3n" es.
Proof.
  destruct (bearer_auth_header Sample.online (Sample.with_auth Sample.bearer_token)
              Sample.bearer_token "t0k3n" eq_refl eq_refl eq_refl
              ltac:(discriminate) (UStr Sample.seed) new_crawler)
    as (es & Htrace & Hcarry).
  exists es. split; [exact Htrace|exact Hcarry].
Defined.

Lemma bearer_auth_missing_token_witness :
  authenticate Sample.online (Sample.with_auth Sample.bearer_without_token) new_crawler
  = (Ok None, new_crawler).
Proof.
  apply (bearer_auth_missing_token Sample.online
           (Sample.with_auth Sample.bearer_without_token)
           Sample.bearer_without_token eq_refl eq_refl).
  by left.
Defined.

Lemma cookie_auth_header_witness :
  exists es,
    trace (snd (makeRequest Sample.online (Sample.with_auth Sample.cookie_pairs)
                  (UStr Sample.seed) new_crawler)) = es
    /\ requests_carry (Sample.with_auth Sample.cookie_pairs) "Cookie"
         "sid=abc123; theme=dark" es.
Proof.
  destruct (cookie_auth_header Sample.online (Sample.with_auth Sample.cookie_pairs)
              Sample.cookie_pairs
              (CookieArray [("sid", "abc123"); ("theme", "dark")])
              eq_refl eq_refl eq_refl ltac:(discriminate) (UStr Sample.seed) new_crawler)
    as (es & Htrace & Hcarry).
  exists es. split; [exact Htrace|exact Hcarry].
Defined.

(** * Authentication errors that reach the caller *)

Lemma loop_events_without_login url headers es :
  Forall (loop_event url headers) es -> login_posts es = [].
Proof.
  induction 1 as [|e es [->|[ms ->]] _ IH]; [done|..]; exact IH.
Qed.

Lemma login_posts_app t1 t2 : login_posts (t1 ++ t2) = (login_posts t1 ++ login_posts t2)%list.
Proof. apply omap_app. Qed.

Section Aborts.

Context (E : Env) (cfg : Options).

(** When [makeRequest] can only throw, and does so without a page request,
    every crawl returns [null] and leaves the store as it was. *)
Lemma crawl_when_request_throws (n : nat) :
  (forall url s, exists e s', makeRequest E cfg url s = (Throw e, s') /\ quiet s s') ->
  forall url options s,
    (nat_of (retries_left options) < n)%nat ->
    exists s', crawlWithAxios_fuel E cfg n url options s = (Ok None, s') /\ quiet s s'.
Proof.
  intros Hthrows.
  induction n as [|n IH]; intros url options s Hfuel; [lia|].
  cbn [crawlWithAxios_fuel]. unfold try_catch. unfold bind at 1.
  unfold get. cbn beta iota.
  destruct (Set_has url (visitedUrls s)); [by exists s|].
  destruct (maxPages cfg <=? Z.of_nat (length (visitedUrls s))); [by exists s|].
  unfold bind at 1.
  assert (exists allowed s1,
             (if respectRobots cfg then checkRobotsTxt E url else ret true) s
             = (Ok allowed, s1) /\ quiet s s1) as (allowed & s1 & -> & Hq1).
  { destruct (respectRobots cfg); [apply checkRobotsTxt_quiet|by exists true, s]. }
  destruct allowed; cbn [negb]; [|by exists s1].
  unfold bind at 1.
  destruct (Hthrows url s1) as (e & s2 & -> & Hq2).
  destruct (positive_opt (retries_left options)) eqn:Hpos.
  - unfold bind at 1. unfold delay, emit. cbn beta iota.
    destruct (IH url {| depth := depth options;
                        retries_left := (fun n => n - 1) <$> retries_left options |}
                (logged s2 [EvDelay (opt_delay cfg * 2)]))
      as (s' & Hrun & Hq3).
    { destruct (retries_left options) as [r|]; [|done].
      unfold nat_of in *. cbn in *. apply Z.ltb_lt in Hpos. lia. }
    exists s'. split; [exact Hrun|].
    eapply quiet_trans; [exact Hq1|]. eapply quiet_trans; [exact Hq2|].
    eapply quiet_trans; [apply logged_delay_quiet|exact Hq3].
  - exists s2. split; [done|]. eapply quiet_trans; [exact Hq1|exact Hq2].
Qed.

(** Cookie authentication without cookies: [authenticateCookie] is [async],
    so its error is not caught by [authenticate]; [makeRequest] throws it
    before any I/O, and every [crawlWithAxios] returns [null] without a
    page request. *)
Theorem cookie_auth_missing_aborts (a : Auth) :
  auth cfg = Some a ->
  auth_type a = "cookie" ->
  cookies (credentials a) = None \/ cookies (credentials a) = Some (CookieString "") ->
  (forall url s, makeRequest E cfg url s = (Throw CookieAuthRequires, s))
  /\ (forall url options s,
        exists s', crawlWithAxios E cfg url options s = (Ok None, s') /\ quiet s s').
Proof.
  intros Hauth Htype Hmissing.
  assert (forall url s, makeRequest E cfg url s = (Throw CookieAuthRequires, s)) as Hthrow.
  { intros url s. unfold makeRequest, bind, authenticate.
    rewrite Hauth, Htype. compare_literals. run_monad. unfold authenticateCookie.
    by destruct Hmissing as [-> | ->]. }
  split; [exact Hthrow|].
  intros url options s. apply crawl_when_request_throws.
  - intros u s0. exists CookieAuthRequires, s0. by rewrite Hthrow.
  - unfold crawl_fuel. lia.
Qed.

End Aborts.

Lemma cookie_auth_missing_aborts_witness :
  makeRequest Sample.online (Sample.with_auth Sample.cookie_without_cookies)
    (UStr Sample.seed) new_crawler
  = (Throw CookieAuthRequires, new_crawler).
Proof.
  apply (cookie_auth_missing_aborts Sample.online
           (Sample.with_auth Sample.cookie_without_cookies)
           Sample.cookie_without_cookies eq_refl eq_refl).
  by left.
Defined.

(** * The login exchange *)

Section LoginExchange.

Context (E : Env) (cfg : Options) (a : Auth) (login : string)
  (form : list (string * string)).

Hypothesis auth_configured : auth cfg = Some a.
Hypothesis auth_is_form : auth_type a = "form".
Hypothesis login_url : loginUrl (credentials a) = Some login.
Hypothesis login_url_not_empty : login <> "".
Hypothesis login_data : loginData (credentials a) = Some form.

Lemma authenticate_form_run s :
  authenticate E cfg s
  = (match axios_result status_2xx_3xx (http_post E login form (length (trace s))) with
     | inl e => Throw (FormAuthenticationFailed e)
     | inr response => Ok (session_cookie response)
     end, logged s [EvLoginPost login form]).
Proof.
  unfold authenticate. rewrite auth_configured, auth_is_form. compare_literals.
  run_monad. unfold authenticateForm. rewrite login_url, login_data.
  destruct (String.eqb_spec login "") as [Heq|_]; [done|].
  run_monad.
  destruct (axios_result status_2xx_3xx _) as [e|response]; run_monad; [done|].
  unfold session_cookie. by destruct (r_set_cookie response) as [[|c0 cs]|].
Qed.

(** The login exchange is not kept for the session: every call of
    [makeRequest] posts the login form once more, exactly once, whatever the
    answers of the network. *)
Theorem form_login_each_request url s :
  login_posts (trace (snd (makeRequest E cfg url s)))
  = (login_posts (trace s) ++ [(login, form)])%list.
Proof.
  pose proof (authenticate_form_run s) as Hrun.
  destruct (axios_result status_2xx_3xx _) as [e|response].
  - unfold makeRequest, bind. rewrite Hrun. cbn [snd logged trace].
    by rewrite login_posts_app.
  - destruct (makeRequest_events E cfg url s _ _ Hrun) as (es & -> & Hall).
    cbn. rewrite !login_posts_app. cbn.
    by rewrite (loop_events_without_login _ _ _ Hall), app_nil_r.
Qed.

(** After a login response with a status in 2xx-3xx, the page requests of
    [makeRequest] carry as [Cookie] header the [Set-Cookie] entries, each cut
    at its first semicolon, joined with "; "; when the response sets no
    cookie, they carry the plain headers only. *)
Theorem form_login_cookie_header url s response :
  http_post E login form (length (trace s)) = HttpReply response ->
  200 <= r_status response < 400 ->
  exists es,
    trace (snd (makeRequest E cfg url s)) = (trace s ++ EvLoginPost login form :: es)%list
    /\ match r_set_cookie response with
       | Some (c0 :: cs) =>
           requests_carry cfg "Cookie" (join "; " (map before_semicolon (c0 :: cs))) es
       | _ => Forall (loop_event url (base_headers cfg)) es
       end.
Proof.
  intros Hreply Hstatus.
  pose proof (authenticate_form_run s) as Hrun.
  rewrite Hreply in Hrun. cbn [axios_result] in Hrun.
  rewrite (status_2xx_3xx_true _ Hstatus) in Hrun.
  destruct (makeRequest_events E cfg url s _ _ Hrun) as (es & Htrace & Hall).
  exists es. split.
  { rewrite Htrace. cbn. by rewrite <- app_assoc. }
  unfold session_cookie in Hall.
  destruct (r_set_cookie response) as [[|c0 cs]|].
  - unfold request_headers in Hall. cbn [default] in Hall.
    by rewrite (left_id_L ∅ (∪)) in Hall.
  - eapply loop_events_carry; [| |exact Hall].
    + apply lookup_singleton_eq.
    + by apply map_disjoint_singleton_l.
  - unfold request_headers in Hall. cbn [default] in Hall.
    by rewrite (left_id_L ∅ (∪)) in Hall.
Qed.

End LoginExchange.

Lemma form_login_each_request_witness :
  let cfg := Sample.with_auth Sample.form_login in
  let s1 := snd (makeRequest Sample.signed_in cfg (UStr Sample.seed) new_crawler) in
  let s2 := snd (makeRequest Sample.signed_in cfg (UStr "https://example.test/a") s1) in
  length (login_posts (trace s2)) = 2%nat.
Proof.
  cbv zeta.
  rewrite (form_login_each_request Sample.signed_in (Sample.with_auth Sample.form_login)
             Sample.form_login "https://example.test/login"
             [("user", "alice"); ("pass", "wrong")] eq_refl eq_refl eq_refl
             ltac:(discriminate) eq_refl).
  rewrite (form_login_each_request Sample.signed_in (Sample.with_auth Sample.form_login)
             Sample.form_login "https://example.test/login"
             [("user", "alice"); ("pass", "wrong")] eq_refl eq_refl eq_refl
             ltac:(discriminate) eq_refl).
  reflexivity.
Defined.

Lemma form_login_cookie_header_witness :
  exists es,
    trace (snd (makeRequest Sample.signed_in (Sample.with_auth Sample.form_login)
                  (UStr Sample.seed) new_crawler))
    = EvLoginPost "https://example.test/login" [("user", "alice"); ("pass", "wrong")] :: es
    /\ requests_carry (Sample.with_auth Sample.form_login) "Cookie"
         "sid=abc123; theme=dark" es.
Proof.
  apply (form_login_cookie_header Sample.signed_in (Sample.with_auth Sample.form_login)
           Sample.form_login "https://example.test/login"
           [("user", "alice"); ("pass", "wrong")] eq_refl eq_refl eq_refl
           ltac:(discriminate) eq_refl (UStr Sample.seed) new_crawler
           {| r_status := 302; r_headers := ∅;
              r_set_cookie := Some ["sid=abc123; Path=/; HttpOnly"; "theme=dark"];
              r_data := "" |}).
  - reflexivity.
  - cbn. lia.
Defined.

(** * The crawler as a state machine *)

Lemma same_but_trace s s' es :
  visitedUrls s' = visitedUrls s ->
  crawledData s' = crawledData s ->
  robotsCache s' = robotsCache s ->
  trace s' = (trace s ++ es)%list ->
  s' = logged s es.
Proof. destruct s, s'. unfold logged. cbn. by intros -> -> -> ->. Qed.

Section StateMachine.

Context (E : Env) (cfg : Options).

Lemma reach_logged es : forall s, Forall (axios_event cfg) es -> reach cfg s (logged s es).
Proof.
  induction es as [|e es IH]; intros s Hall.
  - rewrite logged_nil. apply rtc_refl.
  - apply Forall_cons in Hall as [He Hes].
    change (e :: es) with ([e] ++ es)%list. rewrite <- logged_logged.
    eapply rtc_l; [by apply step_io|]. by apply IH.
Qed.

Lemma checkRobotsTxt_reach url s :
  respectRobots cfg = true -> reach cfg s (snd (checkRobotsTxt E url s)).
Proof.
  intros Hrobots.
  destruct url as [u|l]; [|apply rtc_refl].
  destruct (URL_parse E u) as [[protocol host]|] eqn:Hparse.
  - pose proof (checkRobotsTxt_cases E u protocol host s Hparse) as H. cbn zeta in H.
    set (robotsUrl := protocol +:+ "//" +:+ host +:+ "/robots.txt") in *.
    destruct (robotsCache s !! robotsUrl) eqn:Hcache; [rewrite H; apply rtc_refl|].
    destruct (fetch_robots E robotsUrl _) as [r|]; rewrite H; cbn [snd].
    + eapply rtc_l; [apply (step_io cfg s (EvRobotsGet robotsUrl)); exact Hrobots|].
      eapply rtc_l; [|apply rtc_refl].
      apply (step_cache cfg (logged s [EvRobotsGet robotsUrl]) robotsUrl r). exact Hcache.
    + apply rtc_once. apply (step_io cfg s (EvRobotsGet robotsUrl)). exact Hrobots.
  - unfold checkRobotsTxt. rewrite Hparse. apply rtc_refl.
Qed.

Lemma authenticate_reach s : reach cfg s (snd (authenticate E cfg s)).
Proof.
  unfold authenticate. destruct (auth cfg) as [a|] eqn:Hauth; [|apply rtc_refl].
  run_monad.
  destruct (String.eqb (auth_type a) "basic").
  { destruct (authenticateBasic E (credentials a)); apply rtc_refl. }
  destruct (String.eqb (auth_type a) "bearer").
  { destruct (authenticateBearer (credentials a)); apply rtc_refl. }
  destruct (String.eqb (auth_type a) "cookie").
  { destruct (authenticateCookie_quiet (credentials a) s) as (r & -> & _). apply rtc_refl. }
  destruct (String.eqb_spec (auth_type a) "form") as [Hform|_]; [|apply rtc_refl].
  unfold authenticateForm.
  destruct (loginUrl (credentials a)) as [url|] eqn:Hurl; [|apply rtc_refl].
  destruct (loginData (credentials a)) as [form|] eqn:Hdata; [|apply rtc_refl].
  destruct (String.eqb url ""); [apply rtc_refl|].
  run_monad.
  assert (reach cfg s (logged s [EvLoginPost url form])) as Hstep.
  { apply rtc_once, step_io. by exists a. }
  unfold logged in Hstep.
  destruct (axios_result status_2xx_3xx _) as [e|response]; run_monad; [exact Hstep|].
  by destruct (r_set_cookie response) as [[|c0 cs]|].
Qed.

Lemma request_loop_reach url authHeaders attempts s :
  reach cfg s (snd (request_loop E cfg url (request_headers cfg authHeaders) attempts s)).
Proof.
  destruct (request_loop_shape E cfg url (request_headers cfg authHeaders) attempts s)
    as (r & s' & k & Hrun & _ & Hv & Hc & Hrc & _).
  destruct (request_loop_events E cfg url (request_headers cfg authHeaders) attempts s)
    as (es & Htrace & Hall).
  rewrite Hrun in *. cbn [snd] in *.
  rewrite (same_but_trace s s' es Hv Hc Hrc Htrace).
  apply reach_logged. eapply Forall_impl; [exact Hall|].
  intros e [->|[ms ->]]; [by exists authHeaders|done].
Qed.

Lemma makeRequest_reach url s : reach cfg s (snd (makeRequest E cfg url s)).
Proof.
  pose proof (authenticate_reach s) as Hauth.
  unfold makeRequest, bind.
  destruct (authenticate E cfg s) as [[authHeaders|e|] s1]; cbn [snd] in *; try done.
  etrans; [exact Hauth|apply request_loop_reach].
Qed.

Lemma request_loop_status url headers attempts s response s' :
  request_loop E cfg url headers attempts s = (Ok (Some response), s') ->
  200 <= r_status response < 300.
Proof.
  revert s. induction attempts as [|attempt rest IH]; intros s; [done|].
  cbn [request_loop]. unfold bind at 1. unfold try_catch. unfold bind at 1.
  rewrite axios_run.
  destruct (axios_result status_2xx _) as [e|r] eqn:Hr.
  - destruct (attempt =? retries cfg); [done|].
    unfold logged. run_monad. apply IH.
  - run_monad. intros [= -> _].
    destruct (http_request E url headers (length (trace s))) as [msg|r0]; [done|].
    cbn in Hr. unfold status_2xx in Hr.
    destruct (200 <=? r_status r0) eqn:H1, (r_status r0 <? 300) eqn:H2; try done.
    injection Hr as ->. apply Z.leb_le in H1. apply Z.ltb_lt in H2. lia.
Qed.

Lemma makeRequest_status url s response s' :
  makeRequest E cfg url s = (Ok (Some response), s') -> 200 <= r_status response < 300.
Proof.
  unfold makeRequest, bind.
  destruct (authenticate E cfg s) as [[authHeaders|e|] s1]; try done.
  apply request_loop_status.
Qed.

(** What a move keeps. *)
Lemma reach_extends s s' :
  reach cfg s s' ->
  exists es urls records,
    trace s' = (trace s ++ es)%list
    /\ Forall (axios_event cfg) es
    /\ visitedUrls s' = (visitedUrls s ++ urls)%list
    /\ crawledData s' = (crawledData s ++ records)%list
    /\ length urls = length records
    /\ p_url <$> records = urls
    /\ robotsCache s ⊆ robotsCache s'
    /\ (within_bound cfg s -> within_bound cfg s')
    /\ (NoDup (visited_strings (visitedUrls s)) -> NoDup (visited_strings (visitedUrls s'))).
Proof.
  induction 1 as [s|s s1 s' Hstep _ IH].
  - exists [], [], []. rewrite !app_nil_r. by repeat split.
  - destruct IH as (es & urls & records & Ht & Hes & Hv & Hc & Hlen & Hurl & Hrc & Hb & Hnd).
    destruct Hstep as [s e He|s k r Hfree|s url pageData Hhas Hroom Hp]; cbn in *.
    + exists (e :: es), urls, records. rewrite Ht, <- app_assoc. by repeat split; try apply Forall_cons_2.
    + exists es, urls, records. repeat split; try done.
      etrans; [|exact Hrc]. by apply insert_subseteq.
    + exists es, (url :: urls), (pageData :: records).
      split; [exact Ht|]. split; [exact Hes|].
      split; [by rewrite Hv, <- app_assoc|].
      split; [by rewrite Hc, <- app_assoc|].
      split; [cbn; by rewrite Hlen|].
      split; [cbn; by rewrite Hp, Hurl|].
      split; [exact Hrc|]. split.
      * intros _. apply Hb. unfold within_bound. cbn. rewrite length_app. cbn. lia.
      * intros Hnodup. apply Hnd. rewrite omap_app.
        destruct url as [u|l]; cbn; [|by rewrite app_nil_r].
        apply NoDup_app. split; [exact Hnodup|]. split; [|apply NoDup_singleton].
        intros x Hx ->%list_elem_of_singleton.
        apply list_elem_of_omap in Hx as (v & Hv' & Hsome).
        destruct v as [u'|]; [|done]. injection Hsome as ->.
        assert (Set_has (UStr u) (visitedUrls s) = true) as Hin by by apply Set_has_elem.
        congruence.
Qed.

End StateMachine.

(** * What a crawl stores and returns *)

Section Runs.

Context (E : Env) (cfg : Options).

(** The loop over the links: it ends, by moves of the state machine, and
    stores at most one record per link. *)
Lemma for_each_children n options links s :
  (forall link s0,
      crawl_post cfg (UObj link) options s0
        (crawlWithAxios_fuel E cfg n (UObj link) options s0)) ->
  exists s',
    for_each links
      (fun link =>
         delay (opt_delay cfg) ;;
         crawlWithAxios_fuel E cfg n (UObj link) options ;;
         ret tt) s = (Ok tt, s')
    /\ reach cfg s s'
    /\ (length (crawledData s') <= length (crawledData s) + length links)%nat.
Proof.
  intros Hchild. revert s. induction links as [|link rest IH]; intros s.
  - exists s. split; [done|]. split; [apply rtc_refl|]. cbn. lia.
  - cbn [for_each]. unfold bind at 1. unfold bind at 1. unfold delay, emit.
    cbn beta iota. unfold bind at 1.
    destruct (Hchild link (logged s [EvDelay (opt_delay cfg)]))
      as (r & s1 & Hrun & Hreach & Hr).
    unfold logged in Hrun. rewrite Hrun. unfold ret at 1. cbn beta iota.
    destruct (IH s1) as (s' & Hrest & Hreach' & Hlen).
    exists s'. split; [exact Hrest|]. split.
    + eapply rtc_l; [apply (step_io cfg s (EvDelay (opt_delay cfg))); exact I|].
      etrans; [exact Hreach|exact Hreach'].
    + assert (length (crawledData s1) <= S (length (crawledData s)))%nat as Hone.
      { destruct r as [pageData|].
        - destruct Hr as (records & urls & Hc & _ & _ & _ & _ & _ & Hobj & _).
          rewrite (Hobj link eq_refl) in Hc. rewrite Hc. cbn.
          rewrite length_app. cbn. lia.
        - destruct Hr as [Hc _]. rewrite Hc. cbn. lia. }
      cbn [length]. lia.
Qed.

Lemma crawlWithAxios_fuel_run (n : nat) :
  forall url options s,
    (measure options < n)%nat ->
    crawl_post cfg url options s (crawlWithAxios_fuel E cfg n url options s).
Proof.
  induction n as [|n IH]; intros url options s Hfuel; [lia|].
  assert (forall s2,
             reach cfg s s2 ->
             visitedUrls s2 = visitedUrls s ->
             crawledData s2 = crawledData s ->
             crawl_post cfg url options s
               ((if positive_opt (retries_left options) then
                   delay (opt_delay cfg * 2) ;;
                   crawlWithAxios_fuel E cfg n url
                     {| depth := depth options;
                        retries_left := (fun n => n - 1) <$> retries_left options |}
                 else ret None) s2)) as Hretry.
  { intros s2 Hreach Hv Hc.
    destruct (positive_opt (retries_left options)) eqn:Hpos.
    - unfold bind, delay, emit. cbn beta iota.
      destruct (IH url {| depth := depth options;
                          retries_left := (fun n => n - 1) <$> retries_left options |}
                  (logged s2 [EvDelay (opt_delay cfg * 2)]))
        as (r & s' & Hrun & Hreach' & Hr).
      { unfold measure in *. cbn.
        destruct (retries_left options) as [x|]; [|done].
        unfold nat_of in *. cbn in *. apply Z.ltb_lt in Hpos. lia. }
      unfold logged in Hrun. exists r, s'. split; [exact Hrun|]. split.
      + etrans; [exact Hreach|].
        eapply rtc_l; [apply (step_io cfg s2 (EvDelay (opt_delay cfg * 2))); exact I|].
        exact Hreach'.
      + cbn [logged crawledData visitedUrls depth] in Hr. by rewrite Hv, Hc in Hr.
    - exists None, s2. by repeat split. }
  cbn [crawlWithAxios_fuel]. unfold try_catch. unfold bind at 1.
  unfold get. cbn beta iota.
  assert (crawl_post cfg url options s (Ok None, s)) as Hnull.
  { exists None, s. split; [done|]. split; [apply rtc_refl|done]. }
  destruct (Set_has url (visitedUrls s)) eqn:Hhas; [exact Hnull|].
  destruct (Z.leb_spec (maxPages cfg) (Z.of_nat (length (visitedUrls s)))) as [_|Hroom];
    [exact Hnull|].
  unfold bind at 1.
  assert (exists allowed s1,
             (if respectRobots cfg then checkRobotsTxt E url else ret true) s
             = (Ok allowed, s1) /\ quiet s s1 /\ reach cfg s s1)
    as (allowed & s1 & -> & (Hv1 & Hc1 & _) & Hreach1).
  { destruct (respectRobots cfg) eqn:Hrobots; [|exists true, s; by repeat split].
    destruct (checkRobotsTxt_quiet E url s) as (allowed & s1 & Hrun & Hq).
    exists allowed, s1. repeat split; try done; try apply Hq.
    pose proof (checkRobotsTxt_reach E cfg url s Hrobots) as H. by rewrite Hrun in H. }
  destruct allowed; cbn [negb].
  2:{ exists None, s1. by repeat split. }
  unfold bind at 1.
  destruct (makeRequest_shape E cfg url s1) as (r & s2 & k & Hrun & Hr & Hv2 & Hc2 & _ & _).
  pose proof (makeRequest_reach E cfg url s1) as Hreach2.
  rewrite Hrun in Hreach2 |- *. cbn [snd] in Hreach2.
  rewrite Hv1 in Hv2. rewrite Hc1 in Hc2.
  assert (reach cfg s s2) as Hreach by (etrans; [exact Hreach1|exact Hreach2]).
  destruct r as [[response|]|e|]; [| | |done].
  - (* the page was fetched *)
    pose proof (makeRequest_status E cfg url s1 response s2 Hrun) as Hstatus.
    unfold bind at 1. unfold clock. cbn beta iota.
    unfold bind at 1. unfold push_crawledData. cbn beta iota.
    unfold bind at 1. unfold add_visited. cbn beta iota.
    cbn [visitedUrls crawledData robotsCache trace].
    set (pageData := extractPageData E _ url _ _).
    unfold Set_add. rewrite Hv2, Hhas.
    set (s3 := {| visitedUrls := (visitedUrls s ++ [url])%list |}).
    assert (reach cfg s s3) as Hreach3.
    { etrans; [exact Hreach|]. apply rtc_once.
      pose proof (step_store cfg s2 url pageData) as Hstore.
      rewrite Hv2 in Hstore. by apply Hstore. }
    assert (exists status, p_statusCode pageData = Some status /\ 200 <= status < 300)
      as Hcode.
    { exists (r_status response). split; [|exact Hstatus].
      unfold pageData. cbn. destruct (Z.eqb_spec (r_status response) 0); [lia|done]. }
    unfold bind at 1.
    destruct (positive_opt (depth options)) eqn:Hdepth.
    + destruct (for_each_children n
                  {| depth := (fun n => n - 1) <$> depth options; retries_left := None |}
                  (slice0 (concurrent cfg)
                     (extractLinks E (cheerio_load E (r_data response)) url)) s3)
        as (s' & -> & Hreach' & Hcount).
      { intros link s0. apply IH. unfold measure in *. cbn.
        destruct (depth options) as [x|]; [|done].
        unfold nat_of in *. cbn in *. apply Z.ltb_lt in Hdepth. lia. }
      destruct (reach_extends cfg s3 s' Hreach')
        as (_ & urls & records & _ & _ & Hv' & Hc' & Hlen & _).
      exists (Some pageData), s'. split; [done|]. split; [by etrans|].
      exists records, urls.
      assert (length records
              <= length (slice0 (concurrent cfg)
                           (extractLinks E (cheerio_load E (r_data response)) url)))%nat
        as Hbound.
      { rewrite Hc', length_app in Hcount. lia. }
      split; [rewrite Hc'; unfold s3; cbn [crawledData]; by rewrite Hc2, <- app_assoc|].
      split; [rewrite Hv'; unfold s3; cbn [visitedUrls]; by rewrite <- app_assoc|].
      split; [done|]. split; [done|]. split; [exact Hcode|].
      split; [by rewrite Hdepth|]. split; [|exact Hbound].
      intros l ->. rewrite extractLinks_object in Hbound.
      unfold slice0 in Hbound. destruct (concurrent cfg <? 0); rewrite take_nil in Hbound;
        (destruct records; [done|cbn in Hbound; lia]).
    + exists (Some pageData), s3. split; [done|]. split; [exact Hreach3|].
      exists [], []. cbn. rewrite Hc2. repeat split; try done. lia.
  - (* the loop ran out: [response] is undefined *)
    unfold throw. by apply Hretry.
  - (* the request failed *)
    by apply Hretry.
Qed.

Lemma crawlWithAxios_run url options s :
  crawl_post cfg url options s (crawlWithAxios E cfg url options s).
Proof. apply crawlWithAxios_fuel_run. unfold crawl_fuel, measure. lia. Qed.

End Runs.

(** [crawlWithAxios] always resolves, never rejects. It returns [null]
    exactly when it stored nothing; otherwise it returns the record it stored
    first, the record of [url], and [url] has entered the visited set. *)
Theorem crawlWithAxios_returns_stored_record (E : Env) (cfg : Options) (url : JsUrl)
    (options : CrawlOptions) (s : Crawler) :
  exists r s',
    crawlWithAxios E cfg url options s = (Ok r, s')
    /\ match r with
       | None => crawledData s' = crawledData s /\ visitedUrls s' = visitedUrls s
       | Some pageData =>
           exists records urls,
             crawledData s' = (crawledData s ++ pageData :: records)%list
             /\ visitedUrls s' = (visitedUrls s ++ url :: urls)%list
             /\ p_url pageData = url
       end.
Proof.
  destruct (crawlWithAxios_run E cfg url options s) as (r & s' & Hrun & _ & Hr).
  exists r, s'. split; [exact Hrun|].
  destruct r as [pageData|]; [|exact Hr].
  destruct Hr as (records & urls & Hc & Hv & _ & Hp & _). by exists records, urls.
Qed.

(** The record that [crawlWithAxios] returns carries the status of the
    response, which lies in 200..299. *)
Theorem crawlWithAxios_status_2xx (E : Env) (cfg : Options) (url : JsUrl)
    (options : CrawlOptions) (s s' : Crawler) (pageData : PageData) :
  crawlWithAxios E cfg url options s = (Ok (Some pageData), s') ->
  exists status, p_statusCode pageData = Some status /\ 200 <= status < 300.
Proof.
  intros Hrun.
  destruct (crawlWithAxios_run E cfg url options s) as (r & s1 & Hrun' & _ & Hr).
  rewrite Hrun in Hrun'. injection Hrun' as <- <-.
  by destruct Hr as (records & urls & _ & _ & _ & _ & Hcode & _).
Qed.

Lemma crawlWithAxios_status_2xx_witness :
  exists pageData s',
    crawlWithAxios Sample.online Sample.defaults (UStr Sample.seed)
      {| depth := Some 0; retries_left := None |} new_crawler = (Ok (Some pageData), s')
    /\ exists status, p_statusCode pageData = Some status /\ 200 <= status < 300.
Proof.
  eexists _, _. split.
  - vm_compute. reflexivity.
  - eapply (crawlWithAxios_status_2xx Sample.online Sample.defaults (UStr Sample.seed)
              {| depth := Some 0; retries_left := None |} new_crawler).
    vm_compute. reflexivity.
Defined.

Lemma slice0_length {A} (n : Z) (l : list A) :
  0 <= n -> (length (slice0 n l) <= Z.to_nat n)%nat.
Proof.
  intros Hn. unfold slice0. destruct (Z.ltb_spec n 0); [lia|].
  rewrite length_take. lia.
Qed.

(** Whatever [depth] and [maxPages] are, one call of [crawlWithAxios] stores
    at most [1 + concurrent] page records: the page itself and one for each
    of its first [concurrent] links. *)
Theorem crawlWithAxios_record_count (E : Env) (cfg : Options) (url : JsUrl)
    (options : CrawlOptions) (s : Crawler) :
  0 <= concurrent cfg ->
  (length (crawledData (snd (crawlWithAxios E cfg url options s)))
   <= length (crawledData s) + 1 + Z.to_nat (concurrent cfg))%nat.
Proof.
  intros Hconcurrent.
  destruct (crawlWithAxios_run E cfg url options s) as (r & s' & -> & _ & Hr).
  cbn [snd]. destruct r as [pageData|].
  - destruct Hr as (records & urls & -> & _ & _ & _ & _ & _ & _ & Hbound).
    pose proof (slice0_length (concurrent cfg) (p_links pageData) Hconcurrent).
    rewrite length_app. cbn. lia.
  - destruct Hr as [-> _]. lia.
Qed.

Lemma crawlWithAxios_record_count_witness :
  let s' := snd (crawlWithAxios Sample.online Sample.defaults (UStr Sample.seed)
                   {| depth := Some 3; retries_left := None |} new_crawler) in
  (length (crawledData s') <= 6)%nat.
Proof.
  apply (crawlWithAxios_record_count Sample.online Sample.defaults (UStr Sample.seed)
           {| depth := Some 3; retries_left := None |} new_crawler).
  cbn. lia.
Defined.

(** A crawl only adds: the trace, the visited set and the page records are
    extended, never rewritten; the URLs that enter the visited set are the
    URLs of the records that are stored, in the same order; entries of the
    robots cache are neither removed nor replaced. *)
Theorem crawlWithAxios_only_adds (E : Env) (cfg : Options) (url : JsUrl)
    (options : CrawlOptions) (s : Crawler) :
  let s' := snd (crawlWithAxios E cfg url options s) in
  exists es urls records,
    trace s' = (trace s ++ es)%list
    /\ visitedUrls s' = (visitedUrls s ++ urls)%list
    /\ crawledData s' = (crawledData s ++ records)%list
    /\ p_url <$> records = urls
    /\ robotsCache s ⊆ robotsCache s'.
Proof.
  destruct (crawlWithAxios_run E cfg url options s) as (r & s' & -> & Hreach & _).
  cbn [snd].
  destruct (reach_extends cfg s s' Hreach)
    as (es & urls & records & Ht & _ & Hv & Hc & _ & Hurl & Hrc & _).
  by exists es, urls, records.
Qed.

(** The I/O of [crawlWithAxios]: page requests with the plain headers and
    possibly authentication headers, waits, robots fetches only when robots
    are respected, login POSTs only of the configured login form; never a
    browser session or a curl process. *)
Theorem crawlWithAxios_io (E : Env) (cfg : Options) (url : JsUrl)
    (options : CrawlOptions) (s : Crawler) :
  exists es,
    trace (snd (crawlWithAxios E cfg url options s)) = (trace s ++ es)%list
    /\ Forall (axios_event cfg) es.
Proof.
  destruct (crawlWithAxios_run E cfg url options s) as (r & s' & -> & Hreach & _).
  cbn [snd].
  destruct (reach_extends cfg s s' Hreach) as (es & _ & _ & Ht & Hes & _).
  by exists es.
Qed.

(** With [respectRobots] off, [crawlWithAxios] never fetches a robots.txt. *)
Theorem crawlWithAxios_without_robots (E : Env) (cfg : Options) (url : JsUrl)
    (options : CrawlOptions) (s : Crawler) :
  respectRobots cfg = false ->
  robots_fetches (trace (snd (crawlWithAxios E cfg url options s)))
  = robots_fetches (trace s).
Proof.
  intros Hrobots.
  destruct (crawlWithAxios_run E cfg url options s) as (r & s' & -> & Hreach & _).
  cbn [snd].
  destruct (reach_extends cfg s s' Hreach) as (es & _ & _ & -> & Hes & _).
  rewrite robots_fetches_app.
  assert (robots_fetches es = []) as ->; [|by rewrite app_nil_r].
  induction Hes as [|e es He _ IH]; [done|].
  destruct e; cbn in *; try done. congruence.
Qed.

(** Within the page bound, the records that one call of [crawlWithAxios]
    stores fit into the free slots of the visited set. *)
Theorem crawlWithAxios_records_fit (E : Env) (cfg : Options) (url : JsUrl)
    (options : CrawlOptions) (s : Crawler) :
  within_bound cfg s ->
  Z.of_nat (length (crawledData (snd (crawlWithAxios E cfg url options s))))
  - Z.of_nat (length (crawledData s))
  <= maxPages cfg - Z.of_nat (length (visitedUrls s)).
Proof.
  intros Hbound.
  destruct (crawlWithAxios_run E cfg url options s) as (r & s' & -> & Hreach & _).
  cbn [snd].
  destruct (reach_extends cfg s s' Hreach)
    as (_ & urls & records & _ & _ & Hv & Hc & Hlen & _ & _ & Hb & _).
  specialize (Hb Hbound). unfold within_bound in Hb.
  rewrite Hv, length_app in Hb. rewrite Hc, length_app. lia.
Qed.

Lemma crawlWithAxios_without_robots_witness :
  robots_fetches (trace (snd (crawlWithAxios Sample.online Sample.ignore_robots
                                (UStr Sample.seed)
                                {| depth := Some 1; retries_left := None |} new_crawler)))
  = [].
Proof.
  apply (crawlWithAxios_without_robots Sample.online Sample.ignore_robots (UStr Sample.seed)
           {| depth := Some 1; retries_left := None |} new_crawler).
  reflexivity.
Defined.

Lemma crawlWithAxios_records_fit_witness :
  let s' := snd (crawlWithAxios Sample.online Sample.one_page (UStr Sample.seed)
                   {| depth := Some 2; retries_left := None |} new_crawler) in
  Z.of_nat (length (crawledData s')) - 0 <= 1 - 0.
Proof.
  apply (crawlWithAxios_records_fit Sample.online Sample.one_page (UStr Sample.seed)
           {| depth := Some 2; retries_left := None |} new_crawler).
  unfold within_bound. cbn. lia.
Defined.

(** * Crawls without depth *)

Section Flat.

Context (E : Env) (cfg : Options).

Lemma crawlWithAxios_fuel_flat (n : nat) :
  forall url options s,
    positive_opt (depth options) = false ->
    (nat_of (retries_left options) < n)%nat ->
    exists k,
      page_requests (trace (snd (crawlWithAxios_fuel E cfg n url options s)))
      = (page_requests (trace s) ++ replicate k url)%list.
Proof.
  induction n as [|n IH]; intros url options s Hdepth Hfuel; [lia|].
  assert (forall k s2,
             page_requests (trace s2) = (page_requests (trace s) ++ replicate k url)%list ->
             exists k',
               page_requests
                 (trace (snd ((if positive_opt (retries_left options) then
                                 delay (opt_delay cfg * 2) ;;
                                 crawlWithAxios_fuel E cfg n url
                                   {| depth := depth options;
                                      retries_left := (fun n => n - 1) <$> retries_left options |}
                               else ret None) s2)))
               = (page_requests (trace s) ++ replicate k' url)%list) as Hretry.
  { intros k s2 Hreq.
    destruct (positive_opt (retries_left options)) eqn:Hpos.
    - unfold bind, delay, emit. cbn beta iota.
      destruct (IH url {| depth := depth options;
                          retries_left := (fun n => n - 1) <$> retries_left options |}
                  (logged s2 [EvDelay (opt_delay cfg * 2)]) Hdepth) as [k' Hk'].
      { destruct (retries_left options) as [x|]; [|done].
        unfold nat_of in *. cbn in *. apply Z.ltb_lt in Hpos. lia. }
      unfold logged in Hk'. exists (k + k')%nat. rewrite Hk'. cbn.
      rewrite page_requests_app, Hreq. cbn.
      by rewrite app_nil_r, replicate_add, <- app_assoc.
    - exists k. exact Hreq. }
  cbn [crawlWithAxios_fuel]. unfold try_catch. unfold bind at 1.
  unfold get. cbn beta iota.
  assert (exists k, page_requests (trace s) = (page_requests (trace s) ++ replicate k url)%list)
    as Hnull by (exists 0%nat; cbn; by rewrite app_nil_r).
  destruct (Set_has url (visitedUrls s)); [exact Hnull|].
  destruct (maxPages cfg <=? Z.of_nat (length (visitedUrls s))); [exact Hnull|].
  unfold bind at 1.
  assert (exists allowed s1,
             (if respectRobots cfg then checkRobotsTxt E url else ret true) s
             = (Ok allowed, s1) /\ quiet s s1) as (allowed & s1 & -> & _ & _ & Hreq1).
  { destruct (respectRobots cfg); [apply checkRobotsTxt_quiet|by exists true, s]. }
  destruct allowed; cbn [negb].
  2:{ exists 0%nat. cbn. by rewrite Hreq1, app_nil_r. }
  unfold bind at 1.
  destruct (makeRequest_shape E cfg url s1) as (r & s2 & k & -> & Hr & _ & _ & Hreq2 & _).
  rewrite Hreq1 in Hreq2.
  destruct r as [[response|]|e|]; [| | |done].
  - unfold bind at 1. unfold clock. cbn beta iota.
    unfold bind at 1. unfold push_crawledData. cbn beta iota.
    unfold bind at 1. unfold add_visited. cbn beta iota.
    unfold bind at 1. rewrite Hdepth. cbn. by exists k.
  - unfold throw. by apply (Hretry k).
  - by apply (Hretry k).
Qed.

(** Without a positive [depth] (the default of the second argument),
    [crawlWithAxios] requests nothing but [url] and stores at most one page
    record. *)
Theorem crawlWithAxios_without_depth (url : JsUrl) (options : CrawlOptions) (s : Crawler) :
  positive_opt (depth options) = false ->
  let s' := snd (crawlWithAxios E cfg url options s) in
  (exists k, page_requests (trace s') = (page_requests (trace s) ++ replicate k url)%list)
  /\ (length (crawledData s') <= length (crawledData s) + 1)%nat.
Proof.
  intros Hdepth s'. split.
  - apply crawlWithAxios_fuel_flat; [exact Hdepth|]. unfold crawl_fuel. lia.
  - unfold s'.
    destruct (crawlWithAxios_run E cfg url options s) as (r & s1 & -> & _ & Hr).
    cbn [snd]. destruct r as [pageData|].
    + destruct Hr as (records & urls & -> & _ & _ & _ & _ & Hflat & _).
      rewrite (Hflat Hdepth), length_app. cbn. lia.
    + destruct Hr as [-> _]. lia.
Qed.

End Flat.

Lemma crawlWithAxios_without_depth_witness :
  let s' := snd (crawlWithAxios Sample.online Sample.defaults (UStr Sample.seed)
                   {| depth := None; retries_left := None |} new_crawler) in
  (length (crawledData s') <= 1)%nat.
Proof.
  apply (crawlWithAxios_without_depth Sample.online Sample.defaults (UStr Sample.seed)
           {| depth := None; retries_left := None |} new_crawler).
  reflexivity.
Defined.

(** [this.options.maxDepth] is never read: the depth of a crawl is the
    [depth] of the second argument of [crawlWithAxios] alone. *)
Theorem maxDepth_is_ignored (E : Env) (cfg : Options) (d : Z) (url : JsUrl)
    (options : CrawlOptions) (s : Crawler) :
  crawlWithAxios E (with_maxDepth d cfg) url options s = crawlWithAxios E cfg url options s.
Proof. destruct cfg. reflexivity. Qed.
